(** * Deepdub: the speaker-diarization glue of [deepdub_clusterer.py]

    A shallow embedding of the class [DeepdubClusterer] and of the part of
    Python, pandas and numpy its five methods rely on, followed by the
    properties of the orchestration contract.

    The third-party routines the module calls (deep_speaker, keras,
    scikit-learn, plotly) are not part of the repository: they are the fields
    of the record [Externals], and every call of one of them is logged in the
    trace of the world it runs in. *)

From stdpp Require Import gmap strings list pretty.
From Stdlib Require Import ZArith Lia.

Local Open Scope Z_scope.

(** ** Python values that reach the module *)

Section Model.

(** A float32 is never inspected by the glue code: it stays abstract. *)
Context {float : Type}.

(** A numpy array of floats: its shape and its entries in row-major order. *)
Record ndarray := NdArray { shape : list nat; data : list float }.

(** The content of one cell of the record collection. *)
Inductive cell :=
| CStr (s : string)
| CInt (z : Z)
| CArr (a : ndarray)
| CNaN.                         (* the missing value of pandas *)

(** A pandas DataFrame: the row labels and the columns in their order. *)
Record DataFrame := Frame {
  index : list Z;
  columns : list (string * list cell)
}.

Definition nrows (df : DataFrame) : nat := length (index df).

(** Objects live in a store and are passed by reference. *)
Definition loc := nat.

(** ** Exceptions *)

Inductive library := Numpy | Pandas | DeepSpeaker | Keras | Sklearn | Plotly.

(** An exception object created inside a library. *)
Record exc := Exc { exc_class : string; exc_message : string }.

Inductive type_error :=
| Arity (callee : string) (takes given : nat)
| NotSubscriptable.

(** What a call of a method can raise.  The module has no [raise] statement:
    an exception is raised by the interpreter while it evaluates the code of
    the module ([NameError], [TypeError], [AttributeError]) or inside a
    library ([Foreign]). *)
Inductive exn :=
| NameError (name : string)
| TypeError (why : type_error)
| AttributeError (attr : string)
| Foreign (lib : library) (e : exc).

Definition raised_in (l : library) (e : exn) : Prop :=
  exists x, e = Foreign l x.

(** ** The collaborators outside the repository *)

Record Externals := {
  (** the state outside the objects of the program: the process-wide random
      generators of [random] and [numpy.random], the files *)
  Ω : Type;
  model_t : Type;                         (* a DeepSpeakerModel object *)
  kmeans_t : Type;                        (* a fitted KMeans object *)
  pca_t : Type;                           (* a PCA object *)
  (* deep_speaker.constants *)
  SAMPLE_RATE : Z;
  NUM_FRAMES : Z;
  (* deep_speaker.conv_models.DeepSpeakerModel() *)
  DeepSpeakerModel : Ω -> (exc + model_t) * Ω;
  (* model.m.load_weights(path, by_name=True) *)
  load_weights : model_t -> string -> Ω -> (exc + model_t) * Ω;
  (* deep_speaker.audio.read_mfcc(path, sample_rate) *)
  read_mfcc : string -> Z -> Ω -> (exc + ndarray) * Ω;
  (* deep_speaker.batcher.sample_from_mfcc(mfcc, max_length) *)
  sample_from_mfcc : ndarray -> Z -> Ω -> (exc + ndarray) * Ω;
  (* model.m.predict(x) *)
  predict : model_t -> ndarray -> Ω -> (exc + ndarray) * Ω;
  (* KMeans(n_clusters=.., random_state=..).fit(X), and its labels_ *)
  KMeans_fit : Z -> option Z -> ndarray -> Ω -> (exc + kmeans_t) * Ω;
  labels_ : kmeans_t -> list Z;
  (* PCA(n_components=..), pca.fit_transform(X),
     pca.explained_variance_ratio_.sum() *)
  PCA : Z -> Ω -> (exc + pca_t) * Ω;
  fit_transform : pca_t -> ndarray -> Ω -> (exc + (pca_t * ndarray)) * Ω;
  (* px.scatter_3d(...) followed by fig.show() *)
  scatter_3d_show : DataFrame -> ndarray -> Ω -> (exc + unit) * Ω;
  (* what np.array makes of a list that is not a list of equally shaped
     float arrays: the dtype inference, the object arrays and the errors of
     numpy are left to the library *)
  np_array_other : list cell -> exc + ndarray;
  (* format(a, '') of an array *)
  ndarray_str : ndarray -> string
}.

Context {E : Externals}.

(** The calls of the collaborators, in the order they are made. *)
Inductive event :=
| EvDeepSpeakerModel
| EvLoadWeights (path : string)
| EvReadMfcc (path : string) (sample_rate : Z)
| EvSampleFromMfcc (mfcc : ndarray) (max_length : Z)
| EvPredict (x : ndarray)
| EvKMeansFit (n_clusters : Z) (random_state : option Z) (X : ndarray)
| EvPCA (n_components : Z)
| EvFitTransform (X : ndarray)
| EvScatter3dShow (table : DataFrame) (projected : ndarray).

(** ** The world and the monad of effects *)

Record World := MkWorld {
  heap : gmap loc DataFrame;   (* the DataFrame objects *)
  omega : Ω E;                 (* the state of the collaborators *)
  trace : list event           (* the calls made so far *)
}.

(** An exception does not roll the world back. *)
Definition M (A : Type) : Type := World -> (exn + A) * World.

Definition ret {A} (a : A) : M A := fun w => (inr a, w).

Definition raise {A} (e : exn) : M A := fun w => (inl e, w).

Definition bind {A B} (m : M A) (k : A -> M B) : M B :=
  fun w => match m w with
           | (inl e, w') => (inl e, w')
           | (inr a, w') => k a w'
           end.

Notation "x <- m ;; k" := (bind m (fun x => k))
  (at level 100, m at next level, right associativity).
Notation "m ;;; k" := (bind m (fun _ => k))
  (at level 100, right associativity).

(** A call into library [lib]: the call is logged, the state of the
    collaborators advances, an exception raised inside propagates. *)
Definition extern {A} (lib : library) (ev : event)
    (f : Ω E -> (exc + A) * Ω E) : M A :=
  fun w =>
    let '(r, o) := f (omega w) in
    let w' := MkWorld (heap w) o (trace w ++ [ev]) in
    match r with
    | inl e => (inl (Foreign lib e), w')
    | inr a => (inr a, w')
    end.

Fixpoint traverse {A B} (f : A -> M B) (l : list A) : M (list B) :=
  match l with
  | [] => ret []
  | x :: l' => y <- f x ;; ys <- traverse f l' ;; ret (y :: ys)
  end.

(** ** Names

    A name that is not a parameter or a local variable of a function is
    looked up, when the statement runs, among the names the module binds at
    its top level (lines 15 to 29 of the source: the imports and the class);
    none of the names used below is a builtin. *)

Definition module_globals : list string :=
  [ "random"; "np"; "read_mfcc"; "sample_from_mfcc"; "SAMPLE_RATE";
    "NUM_FRAMES"; "DeepSpeakerModel"; "KMeans"; "PCA"; "pd";
    "DeepdubClusterer" ].

Definition is_bound (name : string) : bool :=
  bool_decide (name ∈ module_globals).

Definition load_global (name : string) : M unit :=
  if is_bound name then ret tt else raise (NameError name).

(** [name.attr] for a free name the code expects to hold an object of the
    program (an instance, a model).  The module binds no such object: when
    the name is bound it is to a module, a function, a class or a constant,
    which has no attribute [attr]. *)
Definition load_global_as {A} (name attr : string) : M A :=
  if is_bound name then raise (AttributeError attr)
  else raise (NameError name).

(** [obj.callee(...)] with [given] positional arguments, [obj] included, for
    a function defined with the parameters [params], the last [defaults] of
    them with a default value. *)
Definition call_method {A} (callee : string) (params : list string)
    (defaults given : nat) (body : M A) : M A :=
  if decide (length params - defaults <= given <= length params)%nat
  then body
  else raise (TypeError (Arity callee (length params) given)).

(** ** numpy *)

(** [np.expand_dims(a, axis=0)] *)
Definition expand_dims (a : ndarray) : ndarray :=
  NdArray (1%nat :: shape a) (data a).

(** The result of a library routine that needs nothing of the world. *)
Definition lift {A} (lib : library) (r : exc + A) : M A :=
  match r with
  | inl e => raise (Foreign lib e)
  | inr a => ret a
  end.

(** [a.reshape(newshape)] *)
Definition reshape (a : ndarray) (newshape : list nat) : M ndarray :=
  lift Numpy
    (if decide (length (data a) = foldr Nat.mul 1%nat newshape)
     then inr (NdArray newshape (data a))
     else inl (Exc "ValueError" "cannot reshape array")).

Definition as_array (c : cell) : option ndarray :=
  match c with CArr a => Some a | _ => None end.

Definition same_shape (a b : ndarray) : bool :=
  bool_decide (shape b = shape a).

(** [np.array(cells)]: equally shaped float arrays are stacked along a new
    first axis, the empty list gives the empty array of shape (0,). *)
Definition np_array_value (cells : list cell) : exc + ndarray :=
  match cells, mapM as_array cells with
  | [], _ => inr (NdArray [0%nat] [])
  | _ :: _, Some (a :: rest) =>
      if forallb (same_shape a) rest
      then inr (NdArray (length (a :: rest) :: shape a)
                        (concat (map data (a :: rest))))
      else np_array_other E cells
  | _ :: _, _ => np_array_other E cells
  end.

Definition np_array (cells : list cell) : M ndarray :=
  lift Numpy (np_array_value cells).

(** Row [i] of an array whose first axis indexes the rows. *)
Definition row (X : ndarray) (i : nat) : list float :=
  let d := foldr Nat.mul 1%nat (tail (shape X)) in
  take d (drop (i * d) (data X)).

(** ** pandas *)

Fixpoint lookup_col (key : string) (cols : list (string * list cell))
    : option (list cell) :=
  match cols with
  | [] => None
  | (k, v) :: rest => if decide (k = key) then Some v else lookup_col key rest
  end.

(** An existing column is replaced where it stands, a new one is appended. *)
Fixpoint assign_col (key : string) (v : list cell)
    (cols : list (string * list cell)) : list (string * list cell) :=
  match cols with
  | [] => [(key, v)]
  | (k, old) :: rest =>
      if decide (k = key) then (k, v) :: rest
      else (k, old) :: assign_col key v rest
  end.

Definition deref (l : loc) : M DataFrame :=
  fun w => match heap w !! l with
           | Some df => (inr df, w)
           | None => (inl (TypeError NotSubscriptable), w)
           end.

Definition store (l : loc) (df : DataFrame) : M unit :=
  fun w => (inr tt, MkWorld (<[l := df]> (heap w)) (omega w) (trace w)).

(** [df[key]], for a frame whose column names are distinct.  (With a name
    that occurs twice pandas answers with a frame of all the columns of
    that name; the properties that depend on the lookup are stated for
    [distinct_columns].) *)
Definition getitem (df : DataFrame) (key : string) : M (list cell) :=
  match lookup_col key (columns df) with
  | Some v => ret v
  | None => raise (Foreign Pandas (Exc "KeyError" key))
  end.

(** [df[[k1, ..., kn]]]: a new frame with the same index, for a frame whose
    column names are distinct. *)
Definition getitems (df : DataFrame) (keys : list string) : M DataFrame :=
  cols <- traverse (fun k => v <- getitem df k ;; ret (k, v)) keys ;;
  ret (Frame (index df) cols).

(** [df.applymap(f)]: [f] on every cell, column after column. *)
Definition applymap (f : cell -> M cell) (df : DataFrame) : M DataFrame :=
  cols <- traverse (fun kv : string * list cell =>
                      v <- traverse f (snd kv) ;; ret (fst kv, v))
                   (columns df) ;;
  ret (Frame (index df) cols).

(** [DataFrame._ensure_valid_index]: a frame without rows that is given [n]
    values, [n > 0], labelled [vidx], first takes [vidx] as its index; its
    columns are filled with the missing value. *)
Definition ensure_valid_index (df : DataFrame) (vidx : list Z) (n : nat)
    : DataFrame :=
  if decide (nrows df = 0 /\ 0 < n)%nat
  then Frame vidx (map (fun kv : string * list cell =>
                          (fst kv, replicate (length vidx) CNaN))
                       (columns df))
  else df.

(** The labels 0, ..., n-1 of a RangeIndex. *)
Definition range_index (n : nat) : list Z := map Z.of_nat (seq 0 n).

(** [df[key] = values] for an array: by position, the lengths must agree. *)
Definition setitem (l : loc) (key : string) (values : list cell) : M unit :=
  df0 <- deref l ;;
  let n := length values in
  let df := ensure_valid_index df0 (range_index n) n in
  if decide (n = nrows df)
  then store l (Frame (index df) (assign_col key values (columns df)))
  else raise (Foreign Pandas
         (Exc "ValueError" "Length of values does not match length of index")).

(** The values of a column labelled by [vidx], brought to the labels [idx]:
    as they are when the two indexes are equal. *)
Definition align (idx vidx : list Z) (vals : list cell) : M (list cell) :=
  if decide (vidx = idx) then ret vals
  else if decide (NoDup vidx)
  then ret (map (fun i => default CNaN (list_to_map (M := gmap Z cell)
                                          (zip vidx vals) !! i)) idx)
  else raise (Foreign Pandas
         (Exc "ValueError" "cannot reindex on an axis with duplicate labels")).

(** [df[[k1, ..., kn]] = value] for a frame [value]: column after column,
    [df[ki] = value[ci]], each aligned on the index of [df]. *)
Definition setitem_frame (l : loc) (keys : list string) (value : DataFrame)
    : M unit :=
  if decide (length keys = length (columns value))
  then
    traverse (fun kc : string * (string * list cell) =>
                df0 <- deref l ;;
                let df := ensure_valid_index df0 (index value)
                            (length (snd (snd kc))) in
                v <- align (index df) (index value) (snd (snd kc)) ;;
                store l (Frame (index df) (assign_col (fst kc) v (columns df))))
             (zip keys (columns value)) ;;;
    ret tt
  else raise (Foreign Pandas
         (Exc "ValueError" "Columns must be same length as key")).

(** [format(c, '')], what an f-string makes of a value. *)
Definition format_cell (c : cell) : string :=
  match c with
  | CStr s => s
  | CInt z => pretty z
  | CArr a => ndarray_str E a
  | CNaN => "nan"
  end.

(** ** The class [DeepdubClusterer] *)

(** An instance: the attributes [__init__] sets.  No method assigns to an
    attribute afterwards; [sentence_df] is a reference to the DataFrame the
    caller passed, which the caller still holds. *)
Record DeepdubClusterer := Instance {
  model : model_t E;
  AUDIO_OUTPUT_DIR : string;
  sentence_df : loc
}.

Definition default_model_path : string :=
  "./pretrained_models/ResCNN_triplet_training_checkpoint_265.h5".

(** [def __init__(self, project_name, sentence_df, model_path=None)],
    reached through [DeepdubClusterer(project_name, sentence_df, model_path)]. *)
Definition __init__ (project_name : string) (sentence_df : loc)
    (model_path : option string) : M DeepdubClusterer :=
  load_global "DeepSpeakerModel" ;;;
  m <- extern DeepSpeaker EvDeepSpeakerModel (DeepSpeakerModel E) ;;
  let dir := "./output_dir/" +:+ project_name +:+ "/audio_segments" in
  m' <- match model_path with
        | Some path =>
            extern Keras (EvLoadWeights path) (load_weights E m path)
        | None =>
            extern Keras (EvLoadWeights default_model_path)
                   (load_weights E m default_model_path)
        end ;;
  ret (Instance m' dir sentence_df).

(** The segment resolver: the f-string of line 73. *)
Definition segment_path (audio_output_dir : string) (h : cell) : string :=
  audio_output_dir +:+ "/" +:+ format_cell h +:+ "_vocals.wav".

(** [def __generate_embedding(self, h)] *)
Definition __generate_embedding (self : DeepdubClusterer) (h : cell)
    : M cell :=
  load_global "sample_from_mfcc" ;;;
  load_global "read_mfcc" ;;;
  let path := segment_path (AUDIO_OUTPUT_DIR self) h in
  load_global "SAMPLE_RATE" ;;;
  audio <- extern DeepSpeaker (EvReadMfcc path (SAMPLE_RATE E))
             (read_mfcc E path (SAMPLE_RATE E)) ;;
  load_global "NUM_FRAMES" ;;;
  mfcc <- extern DeepSpeaker (EvSampleFromMfcc audio (NUM_FRAMES E))
            (sample_from_mfcc E audio (NUM_FRAMES E)) ;;
  (* line 75 reads the free name [model], not [self.model] *)
  mdl <- load_global_as "model" "m" ;;
  load_global "np" ;;;
  embedding <- extern Keras (EvPredict (expand_dims mfcc))
                 (predict E mdl (expand_dims mfcc)) ;;
  a <- reshape embedding [512%nat] ;;
  ret (CArr a).

(** [def get_embeddings(self)] *)
Definition get_embeddings (self : DeepdubClusterer) : M loc :=
  call_method "get_embeddings" ["self"] 0 1 (
    df <- deref (sentence_df self) ;;
    hashes <- getitems df ["hash"] ;;
    mapped <- applymap (__generate_embedding self) hashes ;;
    setitem_frame (sentence_df self) ["embedding"] mapped ;;;
    ret (sentence_df self)).

(** [def cluster(self, n_clusters, random_state=123)] *)
Definition cluster (self : DeepdubClusterer) (n_clusters : Z)
    (random_state : option Z) : M (loc * kmeans_t E) :=
  call_method "cluster" ["self"; "n_clusters"; "random_state"] 1 3 (
    load_global "np" ;;;
    df <- deref (sentence_df self) ;;
    col <- getitem df "embedding" ;;
    embeddings <- np_array col ;;
    load_global "KMeans" ;;;
    kmeans <- extern Sklearn (EvKMeansFit n_clusters random_state embeddings)
                (KMeans_fit E n_clusters random_state embeddings) ;;
    setitem (sentence_df self) "label" (map CInt (labels_ E kmeans)) ;;;
    ret (sentence_df self, kmeans)).

(** The body of [def generate_scatter_3d()].  The function has no parameter:
    [self] in its body is a free name.  The table built for plotly is
    [embeddings_df] together with the projected coordinates. *)
Definition generate_scatter_3d_body : M unit :=
  load_global "PCA" ;;;
  pca <- extern Sklearn (EvPCA 3) (PCA E 3) ;;
  load_global "np" ;;;
  self <- load_global_as "self" "sentence_df" ;;
  df <- deref (sentence_df self) ;;
  col <- getitem df "embedding" ;;
  embeddings <- np_array col ;;
  df1 <- deref (sentence_df self) ;;
  sub <- getitems df1 ["hash"; "sentence"] ;;
  df2 <- deref (sentence_df self) ;;
  lbl <- getitem df2 "label" ;;
  let embeddings_df :=
    Frame (index sub) (assign_col "label" lbl (columns sub)) in
  load_global "pd" ;;;
  fitted <- extern Sklearn (EvFitTransform embeddings)
              (fit_transform E pca embeddings) ;;
  load_global "px" ;;;
  extern Plotly (EvScatter3dShow embeddings_df (snd fitted))
         (scatter_3d_show E embeddings_df (snd fitted)).

(** [obj.generate_scatter_3d()]: the instance is passed as the one
    positional argument of a function that takes none. *)
Definition generate_scatter_3d (self : DeepdubClusterer) : M unit :=
  call_method "generate_scatter_3d" [] 0 1 generate_scatter_3d_body.

(** [DeepdubClusterer.generate_scatter_3d()]: the plain function, called
    through the class with no argument. *)
Definition generate_scatter_3d_unbound : M unit :=
  call_method "generate_scatter_3d" [] 0 0 generate_scatter_3d_body.

(** * The vocabulary of the properties *)

(** ** What a run leaves of the world

    [stable R m]: every run of [m], whether it returns or raises, takes a
    world to one related to it by [R]. *)

Definition stable {A} (R : relation World) (m : M A) : Prop :=
  forall w, R w (snd (m w)).

(** A computation that does not touch the world at all. *)
Definition inert {A} (m : M A) : Prop := forall w, snd (m w) = w.

(** ** Footprints *)

(** [reads P]: the store is as it was, and the calls made all satisfy [P]. *)
Definition reads (P : event -> Prop) : relation World := fun w w' =>
  heap w' = heap w /\
  exists evs, trace w' = trace w ++ evs /\ Forall P evs.

(** Two frames that differ at most in column [c]: same rows, same other
    columns. *)
Definition col_frame (c : string) : relation DataFrame := fun df df' =>
  index df' = index df /\
  forall k, k <> c -> lookup_col k (columns df') = lookup_col k (columns df).

(** [touches l c P]: of the store only column [c] of the frame at [l] may
    have changed, and the calls made all satisfy [P]. *)
Definition touches (l : loc) (c : string) (P : event -> Prop)
    : relation World := fun w w' =>
  (forall l', l' <> l -> heap w' !! l' = heap w !! l') /\
  match heap w !! l with
  | Some df => exists df', heap w' !! l = Some df' /\ col_frame c df df'
  | None => heap w' !! l = None
  end /\
  exists evs, trace w' = trace w ++ evs /\ Forall P evs.

(** The calls an embedding makes: reads of segment files of the project,
    and computations on the arrays read. *)
Definition embedding_call (dir : string) (ev : event) : Prop :=
  match ev with
  | EvReadMfcc path _ => exists h, path = segment_path dir h
  | EvSampleFromMfcc _ _ | EvPredict _ => True
  | _ => False
  end.

(** The weight file at [path] cannot be loaded, whatever the model object
    and the state of the process. *)
Definition weights_unloadable (path : string) : Prop :=
  forall m o, exists e, fst (load_weights E m path o) = inl e.

(** The matrix whose rows are the arrays [vs], in their order. *)
Definition stack (vs : list ndarray) : ndarray :=
  match vs with
  | [] => NdArray [0%nat] []
  | a :: _ => NdArray (length vs :: shape a) (concat (map data vs))
  end.

(** All of [vs] have shape [s]. *)
Definition uniform (s : list nat) (vs : list ndarray) : Prop :=
  Forall (fun a => shape a = s) vs.

(** What a run of [cluster] does on an instance whose collection is [df]. *)
Definition cluster_outcome (self : DeepdubClusterer) (k : Z)
    (rs : option Z) (w : World) (df : DataFrame)
    : (exn + (loc * kmeans_t E)) * World :=
  match lookup_col "embedding" (columns df) with
  | None => (inl (Foreign Pandas (Exc "KeyError" "embedding")), w)
  | Some col =>
      match np_array_value col with
      | inl e => (inl (Foreign Numpy e), w)
      | inr X =>
          let t := trace w ++ [EvKMeansFit k rs X] in
          match KMeans_fit E k rs X (omega w) with
          | (inl e, o) => (inl (Foreign Sklearn e), MkWorld (heap w) o t)
          | (inr km, o) =>
              let labels := map CInt (labels_ E km) in
              let n := length labels in
              let df' := ensure_valid_index df (range_index n) n in
              if decide (n = nrows df')
              then (inr (sentence_df self, km),
                    MkWorld (<[sentence_df self :=
                                 Frame (index df')
                                   (assign_col "label" labels (columns df'))]>
                               (heap w)) o t)
              else (inl (Foreign Pandas (Exc "ValueError"
                      "Length of values does not match length of index")),
                    MkWorld (heap w) o t)
          end
      end
  end.

(** The calls made from world [w] to world [w']. *)
Definition new_events (w w' : World) : list event :=
  drop (length (trace w)) (trace w').

Definition clustering_call (ev : event) : Prop :=
  match ev with EvKMeansFit _ _ _ => True | _ => False end.

Definition kmeans_invoked (evs : list event) : Prop :=
  Exists clustering_call evs.

(** The contract of a seeded k-means: with an integer [random_state] the
    fit depends on nothing but its arguments, in particular not on the
    process-wide generators. *)
Definition seeded_deterministic : Prop :=
  forall k s X o1 o2,
    fst (KMeans_fit E k (Some s) X o1) = fst (KMeans_fit E k (Some s) X o2).

(** Every column of the frame has one cell per row. *)
Definition wf_frame (df : DataFrame) : Prop :=
  Forall (fun kv : string * list cell => length (snd kv) = nrows df)
         (columns df).

(** The contract of the clustering routine on the number of labels: one
    per row of the matrix it was given. *)
Definition labels_per_sample : Prop :=
  forall k rs X o km o',
    KMeans_fit E k rs X o = (inr km, o') ->
    length (labels_ E km) = hd 0%nat (shape X).

(** The label assignment a run of [cluster] ends with: the exception it
    raised, or the labels of the fitted model and the [label] column of the
    collection it returned. *)
Definition labels_of (r : (exn + (loc * kmeans_t E)) * World)
    : exn + (list Z * option (list cell)) :=
  match fst r with
  | inl e => inl e
  | inr (l, km) =>
      inr (labels_ E km,
           heap (snd r) !! l ≫= fun df => lookup_col "label" (columns df))
  end.

(** The audio reader raises for [path], whatever the state of the process. *)
Definition unreadable (path : string) : Prop :=
  forall o, exists e, fst (read_mfcc E path (SAMPLE_RATE E) o) = inl e.

(** No two columns of the frame have the same name. *)
Definition distinct_columns (df : DataFrame) : Prop :=
  NoDup (map fst (columns df)).

(** The text an exception carries: the message of a NameError, the name
    of the callee or of the attribute, the message of a library. *)
Definition exn_text (e : exn) : string :=
  match e with
  | NameError name => "name '" +:+ name +:+ "' is not defined"
  | TypeError (Arity callee _ _) => callee
  | TypeError NotSubscriptable => ""
  | AttributeError attr => attr
  | Foreign _ x => exc_message x
  end.

(** The exception names [path]. *)
Definition identifies (path : string) (e : exn) : Prop :=
  is_Some (String.index 0 path (exn_text e)).

(** The parameter check the specification asks of [cluster]: the run ends
    with an exception that does not come from inside scikit-learn, and the
    clustering routine has not been invoked. *)
Definition fails_fast (self : DeepdubClusterer) (k : Z) (rs : option Z)
    (w : World) : Prop :=
  let r := cluster self k rs w in
  exists e, fst r = inl e /\ ~ raised_in Sklearn e /\
            ~ kmeans_invoked (new_events w (snd r)).

(** The resolution error the specification asks of [get_embeddings] for the
    record of hash [h]: the run ends with an exception that names the path
    of its segment. *)
Definition surfaces_resolution_error (self : DeepdubClusterer) (h : cell)
    (w : World) : Prop :=
  exists e, fst (get_embeddings self w) = inl e /\
            identifies (segment_path (AUDIO_OUTPUT_DIR self) h) e.

(** The calls that project or draw. *)
Definition rendering_call (ev : event) : Prop :=
  match ev with
  | EvFitTransform _ | EvScatter3dShow _ _ => True
  | _ => False
  end.

End Model.

Arguments ndarray : clear implicits.
Arguments cell : clear implicits.
Arguments DataFrame : clear implicits.
Arguments Externals : clear implicits.
Arguments event : clear implicits.
Arguments DeepdubClusterer {float} E.
Arguments World {float} E.
Arguments M {float} E A.
Arguments format_cell {float} E c.
Arguments np_array_value {float} E cells.
Arguments embedding_call {float} E dir ev.
Arguments weights_unloadable {float} E path.
Arguments seeded_deterministic {float} E.
Arguments unreadable {float} E path.
Arguments labels_per_sample {float} E.
Arguments segment_path {float} E audio_output_dir h.

Notation "x <- m ;; k" := (bind m (fun x => k))
  (at level 100, m at next level, right associativity).
Notation "m ;;; k" := (bind m (fun _ => k))
  (at level 100, right associativity).

(** ** Stand-ins for the collaborators

    Small executable doubles of the libraries, with float32 values stood for
    by integers, on which the methods can be run. *)

Module Stub.

Definition audio_files : list string :=
  [ "./output_dir/demo/audio_segments/a1_vocals.wav" ].

Definition weight_files : list string := [ default_model_path ].

(** A k-means that assigns every record to cluster 0; unseeded, it draws the
    cluster from the process-wide generator. *)
Definition kmeans (k : Z) (seed : option Z) (X : ndarray Z) (o : nat)
    : (exc + list Z) * nat :=
  match shape X with
  | [n; _] =>
      if decide (1 <= k <= Z.of_nat n)
      then match seed with
           | Some _ => (inr (replicate n 0), o)
           | None => (inr (replicate n (Z.of_nat o `mod` k)), S o)
           end
      else (inl (Exc "ValueError" "n_samples should be >= n_clusters"), o)
  | _ => (inl (Exc "ValueError" "Expected 2D array"), o)
  end.

Definition E : Externals Z := {|
  Ω := nat;
  model_t := bool;                (* whether the weights are loaded *)
  kmeans_t := list Z;
  pca_t := unit;
  SAMPLE_RATE := 16000;
  NUM_FRAMES := 160;
  DeepSpeakerModel := fun o => (inr false, o);
  load_weights := fun _ path o =>
    if bool_decide (path ∈ weight_files) then (inr true, o)
    else (inl (Exc "OSError" path), o);
  read_mfcc := fun path _ o =>
    if bool_decide (path ∈ audio_files)
    then (inr (NdArray [200%nat; 64%nat] []), o)
    else (inl (Exc "FileNotFoundError" path), o);
  sample_from_mfcc := fun _ _ o =>
    (inr (NdArray [160%nat; 64%nat; 1%nat] []), S o);
  predict := fun _ _ o => (inr (NdArray [1%nat; 512%nat] (replicate 512 0)), o);
  KMeans_fit := kmeans;
  labels_ := fun l => l;
  PCA := fun _ o => (inr tt, o);
  fit_transform := fun _ X o => (inr (tt, X), o);
  scatter_3d_show := fun _ _ o => (inr tt, o);
  np_array_other := fun _ => inl (Exc "ValueError" "inhomogeneous shape");
  ndarray_str := fun _ => "[...]"
|}.

(** Two utterances, only the first of which has its segment on disk. *)
Definition sentences : DataFrame Z :=
  Frame [0; 1] [ ("hash", [CStr "a1"; CStr "b2"]);
                 ("sentence", [CStr "hello"; CStr "good evening"]) ].

(** One utterance whose segment is missing. *)
Definition missing : DataFrame Z :=
  Frame [0] [ ("hash", [CStr "b2"]); ("sentence", [CStr "good evening"]) ].

(** A collection that was not given its [hash] column. *)
Definition unhashed : DataFrame Z :=
  Frame [0] [ ("sentence", [CStr "hello"]) ].

(** A collection without records. *)
Definition no_sentences : DataFrame Z :=
  Frame [] [ ("hash", []); ("sentence", []) ].

Definition embeddings : list (ndarray Z) :=
  [ NdArray [2%nat] [1; 2]; NdArray [2%nat] [3; 4] ].

(** The collection with embeddings, as the embedder is meant to leave it. *)
Definition embedded : DataFrame Z :=
  Frame [0; 1] [ ("hash", [CStr "a1"; CStr "b2"]);
                 ("sentence", [CStr "hello"; CStr "good evening"]);
                 ("embedding", map CArr embeddings) ].

(** A world that holds the collection [df] at address 7, with the
    process-wide generators in state [o]. *)
Definition world_at (o : nat) (df : DataFrame Z) : World E :=
  MkWorld (E := E) {[ 7%nat := df ]} o [].

Definition world (df : DataFrame Z) : World E := world_at 0 df.

Definition clusterer : DeepdubClusterer E :=
  Instance (E := E) true "./output_dir/demo/audio_segments" 7%nat.

(** A k-means that labels the i-th row [i mod k], so that the labels tell
    the records apart; the other collaborators are those of [E]. *)
Definition kmeans_by_row (k : Z) (seed : option Z) (X : ndarray Z) (o : nat)
    : (exc + list Z) * nat :=
  match shape X with
  | [n; _] =>
      if decide (1 <= k <= Z.of_nat n)
      then (inr (map (fun i => Z.of_nat i `mod` k) (seq 0 n)), o)
      else (inl (Exc "ValueError" "n_samples should be >= n_clusters"), o)
  | _ => (inl (Exc "ValueError" "Expected 2D array"), o)
  end.

Definition E_by_row : Externals Z := {|
  Ω := nat;
  model_t := bool;
  kmeans_t := list Z;
  pca_t := unit;
  SAMPLE_RATE := SAMPLE_RATE E;
  NUM_FRAMES := NUM_FRAMES E;
  DeepSpeakerModel := DeepSpeakerModel E;
  load_weights := load_weights E;
  read_mfcc := read_mfcc E;
  sample_from_mfcc := sample_from_mfcc E;
  predict := predict E;
  KMeans_fit := kmeans_by_row;
  labels_ := fun l => l;
  PCA := PCA E;
  fit_transform := fit_transform E;
  scatter_3d_show := scatter_3d_show E;
  np_array_other := np_array_other E;
  ndarray_str := ndarray_str E
|}.

Definition world_by_row (df : DataFrame Z) : World E_by_row :=
  MkWorld (E := E_by_row) {[ 7%nat := df ]} 0%nat [].

Definition clusterer_by_row : DeepdubClusterer E_by_row :=
  Instance (E := E_by_row) true "./output_dir/demo/audio_segments" 7%nat.

End Stub.

(** * Properties *)

Lemma append_assoc (a b c : string) : (a +:+ b) +:+ c = a +:+ b +:+ c.
Proof.
  induction a as [|x a IH]; [done|].
  change (String x ((a +:+ b) +:+ c) = String x (a +:+ b +:+ c)).
  by f_equal.
Qed.

Section Properties.

Context {float : Type} {E : Externals float}.

Implicit Types (w : World E) (self : DeepdubClusterer E) (df : DataFrame float).

Local Abbreviation inert := (inert (E := E)).
Local Abbreviation stable := (stable (E := E)).
Local Abbreviation reads := (reads (E := E)).
Local Abbreviation touches := (touches (E := E)).
Local Abbreviation col_frame := (col_frame (float := float)).

Lemma inert_ret {A} (a : A) : inert (ret a).
Proof. done. Qed.

Lemma inert_raise {A} (e : exn) : inert (raise (A := A) e).
Proof. done. Qed.

Lemma inert_bind {A B} (m : M E A) (k : A -> M E B) :
  inert m -> (forall a, inert (k a)) -> inert (bind m k).
Proof.
  intros Hm Hk w. unfold bind. specialize (Hm w).
  destruct (m w) as [[e|a] w1]; simpl in *; subst; [done | apply Hk].
Qed.

Lemma inert_traverse {A B} (f : A -> M E B) (l : list A) :
  (forall x, inert (f x)) -> inert (traverse f l).
Proof.
  intros Hf. induction l as [|x l IH]; simpl; [apply inert_ret|].
  apply inert_bind; [apply Hf | intros y].
  apply inert_bind; [apply IH | intros ys; apply inert_ret].
Qed.

Lemma inert_load_global name : inert (load_global (E := E) name).
Proof. unfold load_global. destruct (is_bound name); done. Qed.

Lemma inert_load_global_as {A} name attr :
  inert (load_global_as (E := E) (A := A) name attr).
Proof. unfold load_global_as. destruct (is_bound name); done. Qed.

Lemma inert_deref l : inert (deref (E := E) l).
Proof. intros w. unfold deref. destruct (heap w !! l); done. Qed.

Lemma inert_getitem df key : inert (getitem (E := E) df key).
Proof. unfold getitem. destruct (lookup_col key (columns df)); done. Qed.

Lemma inert_getitems df keys : inert (getitems (E := E) df keys).
Proof.
  apply inert_bind; [|intros; apply inert_ret].
  apply inert_traverse. intros k.
  apply inert_bind; [apply inert_getitem | intros; apply inert_ret].
Qed.

Lemma inert_lift {A} lib (r : exc + A) : inert (lift (E := E) lib r).
Proof. by destruct r. Qed.

Lemma inert_reshape a newshape : inert (reshape (E := E) a newshape).
Proof. apply inert_lift. Qed.

Lemma inert_np_array cells : inert (np_array (E := E) cells).
Proof. apply inert_lift. Qed.

Lemma inert_align idx vidx vals : inert (align (E := E) idx vidx vals).
Proof. unfold align. repeat case_decide; done. Qed.

Create HintDb inert discriminated.
#[local] Hint Resolve inert_ret inert_raise inert_load_global
  inert_load_global_as inert_deref inert_getitem inert_getitems
  inert_reshape inert_np_array inert_align : inert.

Section Stable.

Context (R : relation (World E)) `{!PreOrder R}.

Lemma stable_inert {A} (m : M E A) : inert m -> stable R m.
Proof. intros Hm w. by rewrite Hm. Qed.

Lemma stable_bind {A B} (m : M E A) (k : A -> M E B) :
  stable R m -> (forall a, stable R (k a)) -> stable R (bind m k).
Proof.
  intros Hm Hk w. unfold bind. specialize (Hm w).
  destruct (m w) as [[e|a] w1]; simpl in *; [done|].
  by etrans; [|apply Hk].
Qed.

Lemma stable_traverse {A B} (f : A -> M E B) (l : list A) :
  (forall x, stable R (f x)) -> stable R (traverse f l).
Proof.
  intros Hf. induction l as [|x l IH]; simpl.
  - by apply stable_inert.
  - apply stable_bind; [apply Hf | intros y].
    apply stable_bind; [apply IH | intros ys]. by apply stable_inert.
Qed.

Lemma stable_call_method {A} callee params defaults given (body : M E A) :
  stable R body -> stable R (call_method callee params defaults given body).
Proof. intros Hb. unfold call_method. case_decide; [done|]. by apply stable_inert. Qed.

Lemma stable_extern {A} lib ev (f : Ω E -> (exc + A) * Ω E) :
  (forall w o, R w (MkWorld (heap w) o (trace w ++ [ev]))) ->
  stable R (extern lib ev f).
Proof.
  intros Hev w. unfold extern.
  destruct (f (omega w)) as [[e|a] o]; apply Hev.
Qed.

End Stable.

#[local] Instance reads_preorder P : PreOrder (reads P).
Proof.
  split.
  - intros w. split; [done|]. exists []. by rewrite app_nil_r.
  - intros w1 w2 w3 [H1 (e1 & T1 & F1)] [H2 (e2 & T2 & F2)].
    split; [congruence|]. exists (e1 ++ e2).
    rewrite T2, T1, <- app_assoc. split; [done | by apply Forall_app].
Qed.

#[local] Instance col_frame_preorder c : PreOrder (col_frame c).
Proof.
  split.
  - by intros df.
  - intros d1 d2 d3 [I1 C1] [I2 C2]. split; [congruence|].
    intros k Hk. by rewrite C2, C1.
Qed.

#[local] Instance touches_preorder l c P : PreOrder (touches l c P).
Proof.
  split.
  - intros w. split; [done|]. split.
    + destruct (heap w !! l) as [df|]; [|done]. by exists df.
    + exists []. by rewrite app_nil_r.
  - intros w1 w2 w3 (O1 & L1 & e1 & T1 & F1) (O2 & L2 & e2 & T2 & F2).
    split; [intros l' Hl; by rewrite O2, O1|]. split.
    + destruct (heap w1 !! l) as [d1|].
      * destruct L1 as (d2 & Hd2 & C12). rewrite Hd2 in L2.
        destruct L2 as (d3 & Hd3 & C23). exists d3. split; [done | by etrans].
      * by rewrite L1 in L2.
    + exists (e1 ++ e2). rewrite T2, T1, <- app_assoc.
      split; [done | by apply Forall_app].
Qed.

Lemma reads_touches l c P w w' : reads P w w' -> touches l c P w w'.
Proof.
  intros [Hh Ht]. split; [by rewrite Hh|]. split; [|done].
  rewrite Hh. destruct (heap w !! l) as [df|]; [|done]. by exists df.
Qed.

Lemma reads_extern {A} (P : event float -> Prop) lib ev
    (f : Ω E -> (exc + A) * Ω E) :
  P ev -> stable (reads P) (extern lib ev f).
Proof.
  intros Hev. apply stable_extern. intros w o. split; [done|].
  exists [ev]. split; [done | by apply Forall_singleton].
Qed.

Lemma lookup_assign_col_ne key k (v : list (cell float)) cols :
  k <> key -> lookup_col k (assign_col key v cols) = lookup_col k cols.
Proof.
  intros Hk. induction cols as [|[k' old] cols IH]; simpl.
  - by rewrite decide_False by done.
  - destruct (decide (k' = key)) as [->|Hne]; simpl.
    + by rewrite !decide_False by done.
    + by rewrite IH.
Qed.

Lemma lookup_assign_col_eq key (v : list (cell float)) cols :
  lookup_col key (assign_col key v cols) = Some v.
Proof.
  induction cols as [|[k' old] cols IH]; simpl.
  - by rewrite decide_True.
  - destruct (decide (k' = key)) as [->|Hne]; simpl.
    + by rewrite decide_True.
    + by rewrite decide_False.
Qed.

(** Replacing column [c] of the frame at [l] stays within [touches l c]. *)
Lemma touches_store_col l c P w df v :
  heap w !! l = Some df ->
  touches l c P w
    (MkWorld (<[l := Frame (index df) (assign_col c v (columns df))]> (heap w))
             (omega w) (trace w)).
Proof.
  intros Hl. split; [|split]; simpl.
  - intros l' Hne. by rewrite lookup_insert_ne.
  - rewrite Hl. eexists. split; [apply lookup_insert_eq|].
    split; [done|]. intros k Hk. by apply lookup_assign_col_ne.
  - exists []. by rewrite app_nil_r.
Qed.

Ltac stable_step :=
  first
    [ apply stable_bind; [ apply _ | | intros ? ]
    | apply stable_call_method; [ apply _ | ]
    | apply stable_traverse; [ apply _ | intros ? ]
    | apply stable_inert; [ apply _ | solve [ eauto with inert ] ]
    | apply reads_extern ].


(** ** The embedder never gets to the model *)

(** Every run of [__generate_embedding] ends in one of three ways, none of
    which returns: the reader raises, the sampler raises, or the name
    [model] of line 75 is not bound. *)
Lemma generate_embedding_run self h w :
  let path := segment_path E (AUDIO_OUTPUT_DIR self) h in
  let read := EvReadMfcc path (SAMPLE_RATE E) in
  __generate_embedding self h w =
  match read_mfcc E path (SAMPLE_RATE E) (omega w) with
  | (inl e, o) =>
      (inl (Foreign DeepSpeaker e), MkWorld (heap w) o (trace w ++ [read]))
  | (inr audio, o) =>
      let sample := EvSampleFromMfcc audio (NUM_FRAMES E) in
      match sample_from_mfcc E audio (NUM_FRAMES E) o with
      | (inl e, o') =>
          (inl (Foreign DeepSpeaker e),
           MkWorld (heap w) o' ((trace w ++ [read]) ++ [sample]))
      | (inr mfcc, o') =>
          (inl (NameError "model"),
           MkWorld (heap w) o' ((trace w ++ [read]) ++ [sample]))
      end
  end.
Proof.
  intros path read.
  unfold __generate_embedding, bind, extern, load_global, load_global_as.
  simpl. fold path.
  destruct (read_mfcc E path (SAMPLE_RATE E) (omega w)) as [[e|audio] o];
    simpl; [done|].
  by destruct (sample_from_mfcc E audio (NUM_FRAMES E) o) as [[e|mfcc] o'].
Qed.

Lemma generate_embedding_raises self h w :
  exists e, fst (__generate_embedding self h w) = inl e.
Proof.
  rewrite generate_embedding_run. simpl.
  destruct (read_mfcc _ _ _ _) as [[e|audio] o]; [by eexists|].
  destruct (sample_from_mfcc _ _ _ _) as [[e|mfcc] o']; by eexists.
Qed.

Lemma generate_embedding_reads self h :
  stable (reads (embedding_call E (AUDIO_OUTPUT_DIR self)))
         (__generate_embedding self h).
Proof.
  unfold __generate_embedding. repeat stable_step; simpl; eauto.
Qed.

(** C2, as the code has it: for a record whose segment the reader reads and
    the sampler accepts, [__generate_embedding] does not return a vector of
    length 512: it raises a NameError, the name [model] of line 75 being
    bound neither in the function nor in the module. *)
Theorem generate_embedding_name_error self h w audio o mfcc o' :
  read_mfcc E (segment_path E (AUDIO_OUTPUT_DIR self) h) (SAMPLE_RATE E)
            (omega w) = (inr audio, o) ->
  sample_from_mfcc E audio (NUM_FRAMES E) o = (inr mfcc, o') ->
  fst (__generate_embedding self h w) = inl (NameError "model").
Proof.
  intros Hread Hsample. rewrite generate_embedding_run. simpl.
  by rewrite Hread, Hsample.
Qed.

(** ** The visualizer *)

(** C10: invoked on an instance, [generate_scatter_3d] raises a TypeError
    (the function takes no positional argument and is given one, the
    instance) and the world is as before: nothing was projected or drawn. *)
Theorem generate_scatter_3d_raises_type_error self w :
  generate_scatter_3d self w =
  (inl (TypeError (Arity "generate_scatter_3d" 0 1)), w).
Proof. reflexivity. Qed.

Lemma generate_scatter_3d_body_reads :
  stable (reads (fun _ => True)) generate_scatter_3d_body.
Proof. unfold generate_scatter_3d_body. repeat stable_step; done. Qed.

(** C8: the visualizer leaves the record collection of the instance as it
    was, and every other frame of the store with it, whether it is invoked
    on the instance or as a plain function through the class. *)
Theorem generate_scatter_3d_leaves_collection self w :
  heap (snd (generate_scatter_3d self w)) !! sentence_df self
    = heap w !! sentence_df self /\
  heap (snd (generate_scatter_3d_unbound w)) = heap w.
Proof.
  split.
  - assert (stable (reads (fun _ => True)) (generate_scatter_3d self)) as Hs.
    { apply stable_call_method; [apply _|]. apply generate_scatter_3d_body_reads. }
    destruct (Hs w) as [-> _]. done.
  - assert (stable (reads (fun _ => True))
              (generate_scatter_3d_unbound (E := E))) as Hs.
    { apply stable_call_method; [apply _|]. apply generate_scatter_3d_body_reads. }
    by destruct (Hs w) as [-> _].
Qed.

(** ** Construction and the segment resolver *)

Lemma init_run project_name sdf model_path w :
  let path := default default_model_path model_path in
  __init__ project_name sdf model_path w =
  match DeepSpeakerModel E (omega w) with
  | (inl e, o) =>
      (inl (Foreign DeepSpeaker e),
       MkWorld (heap w) o (trace w ++ [EvDeepSpeakerModel]))
  | (inr m, o) =>
      let t := (trace w ++ [EvDeepSpeakerModel]) ++ [EvLoadWeights path] in
      match load_weights E m path o with
      | (inl e, o') => (inl (Foreign Keras e), MkWorld (heap w) o' t)
      | (inr m', o') =>
          (inr (Instance m'
                  ("./output_dir/" +:+ project_name +:+ "/audio_segments")
                  sdf),
           MkWorld (heap w) o' t)
      end
  end.
Proof.
  intros path. unfold __init__, bind, extern, load_global. simpl.
  destruct (DeepSpeakerModel E (omega w)) as [[e|m] o]; simpl; [done|].
  subst path. destruct model_path as [p|]; simpl;
    by destruct (load_weights E m _ o) as [[e|m'] o'].
Qed.


(** A constructed instance has had its weights loaded, from the explicit
    path or from the default one, during the construction. *)
Lemma init_loads_weights project_name sdf model_path w self w' :
  __init__ project_name sdf model_path w = (inr self, w') ->
  let path := default default_model_path model_path in
  exists m o o',
    DeepSpeakerModel E (omega w) = (inr m, o) /\
    load_weights E m path o = (inr (model self), o') /\
    trace w' = (trace w ++ [EvDeepSpeakerModel]) ++ [EvLoadWeights path].
Proof.
  rewrite init_run. simpl.
  destruct (DeepSpeakerModel E (omega w)) as [[e|m] o]; [done|].
  destruct (load_weights E m _ o) as [[e|m'] o'] eqn:Hl; [done|].
  intros [= <- <-]. by exists m, o, o'.
Qed.

(** C9: for the instance constructed for [project_name], the segment of
    hash [h] resolves to
    [./output_dir/{project_name}/audio_segments/{h}_vocals.wav], a function
    of the two strings alone, and this is the path the embedder passes to
    the audio reader. *)
Theorem segment_path_convention project_name sdf model_path w self w'
    (h : string) :
  __init__ project_name sdf model_path w = (inr self, w') ->
  let path := "./output_dir/" +:+ project_name +:+ "/audio_segments/"
              +:+ h +:+ "_vocals.wav" in
  segment_path E (AUDIO_OUTPUT_DIR self) (CStr h) = path /\
  forall w1, exists evs,
    trace (snd (__generate_embedding self (CStr h) w1))
    = trace w1 ++ EvReadMfcc path (SAMPLE_RATE E) :: evs.
Proof.
  rewrite init_run. simpl.
  destruct (DeepSpeakerModel E (omega w)) as [[e|m] o]; [done|].
  destruct (load_weights E m _ o) as [[e|m'] o']; [done|].
  intros [= <- <-]. simpl.
  assert (segment_path E
            ("./output_dir/" +:+ project_name +:+ "/audio_segments") (CStr h)
          = "./output_dir/" +:+ project_name +:+ "/audio_segments/"
            +:+ h +:+ "_vocals.wav") as Hp.
  { unfold segment_path. simpl.
    change ("./output_dir/" +:+ project_name +:+ "/audio_segments")
      with (("./output_dir/" +:+ project_name) +:+ "/audio_segments").
    by rewrite !append_assoc. }
  split; [done|]. intros w1. rewrite generate_embedding_run. simpl.
  rewrite Hp.
  destruct (read_mfcc _ _ _ _) as [[e|audio] o1]; simpl; [by exists []|].
  destruct (sample_from_mfcc _ _ _ _) as [[e|mfcc] o2]; simpl;
    rewrite <- app_assoc; by eexists.
Qed.

(** ** The clusterer *)

Lemma mapM_as_array (vs : list (ndarray float)) :
  mapM as_array (map CArr vs) = Some vs.
Proof. induction vs as [|a vs IH]; simpl; [done | by rewrite IH]. Qed.

Lemma np_array_value_stack s (vs : list (ndarray float)) :
  uniform s vs -> np_array_value E (map CArr vs) = inr (stack vs).
Proof.
  intros Hu. unfold np_array_value.
  destruct vs as [|a vs]; [done|].
  pose proof (mapM_as_array (a :: vs)) as Hm.
  change (map CArr (a :: vs)) with (CArr a :: map CArr vs) in *.
  lazy beta iota. rewrite Hm. clear Hm.
  apply Forall_cons in Hu as [Ha Hvs].
  assert (forallb (same_shape a) vs = true) as ->; [|done].
  induction Hvs as [|b vs Hb _ IH]; simpl; [done|].
  rewrite IH, andb_true_r. apply bool_decide_eq_true. congruence.
Qed.

Lemma concat_row (d i : nat) (ls : list (list float)) l :
  Forall (fun x => length x = d) ls ->
  ls !! i = Some l ->
  take d (drop (i * d) (concat ls)) = l.
Proof.
  intros Hls. revert i. induction Hls as [|x ls Hx _ IH]; intros i Hi.
  - done.
  - destruct i as [|i]; simpl in *.
    + injection Hi as ->. by apply take_app_length'.
    + rewrite drop_app_add' by done. by apply IH.
Qed.

(** Row [i] of the stacked matrix is the [i]-th vector. *)
Lemma stack_row (d i : nat) (vs : list (ndarray float)) a :
  Forall (fun a => shape a = [d] /\ length (data a) = d) vs ->
  vs !! i = Some a ->
  shape (stack vs) = [length vs; d] /\ row (stack vs) i = data a.
Proof.
  intros Hvs Hi. destruct vs as [|a0 vs]; [done|].
  pose proof (Forall_inv Hvs) as [Hs0 _].
  unfold row, stack. cbn [shape data]. rewrite Hs0. split; [done|].
  cbn [tail foldr]. rewrite Nat.mul_1_r.
  apply concat_row.
  - apply List.Forall_map. eapply Forall_impl; [exact Hvs|]. by intros b [_ Hb].
  - change (map data (a0 :: vs)) with (data <$> (a0 :: vs)).
    by rewrite list_lookup_fmap, Hi.
Qed.

Lemma ensure_valid_index_id df vidx n :
  (nrows df <> 0 \/ n = 0)%nat -> ensure_valid_index df vidx n = df.
Proof.
  intros Hn. unfold ensure_valid_index. rewrite decide_False; [done | lia].
Qed.

Lemma nrows_ensure_valid_index df1 df2 vidx n :
  nrows df1 = nrows df2 ->
  nrows (ensure_valid_index df1 vidx n) = nrows (ensure_valid_index df2 vidx n).
Proof.
  intros Hn. unfold ensure_valid_index. rewrite Hn.
  by destruct (decide _).
Qed.

Lemma lookup_col_wf df key col :
  wf_frame df -> lookup_col key (columns df) = Some col ->
  length col = nrows df.
Proof.
  unfold wf_frame. generalize (nrows df). intros n Hwf.
  induction Hwf as [|[k v] cols Hv _ IH]; simpl; [done|].
  destruct (decide (k = key)); [by intros [= <-] | done].
Qed.

(** A well-formed frame is not given an index by [cluster]: without rows
    there are no embeddings, and the routine answers with no label. *)
Lemma cluster_keeps_index df col X k rs o km o' :
  wf_frame df -> labels_per_sample E ->
  lookup_col "embedding" (columns df) = Some col ->
  np_array_value E col = inr X ->
  KMeans_fit E k rs X o = (inr km, o') ->
  ensure_valid_index df
    (range_index (length (map (CInt (float := float)) (labels_ E km))))
    (length (map (CInt (float := float)) (labels_ E km))) = df.
Proof.
  intros Hwf Hper Hcol HX Hfit. apply ensure_valid_index_id.
  destruct (nrows df) as [|m] eqn:Hrows; [right | by left].
  apply (lookup_col_wf _ _ _ Hwf) in Hcol. rewrite Hrows in Hcol.
  destruct col; [|done]. injection HX as <-.
  rewrite length_map. by rewrite (Hper _ _ _ _ _ _ Hfit).
Qed.

Lemma cluster_run self k rs w df :
  heap w !! sentence_df self = Some df ->
  cluster self k rs w = cluster_outcome self k rs w df.
Proof.
  intros Hl. unfold cluster, cluster_outcome, call_method. simpl.
  unfold bind at 1. simpl. unfold bind at 1. unfold deref at 1. rewrite Hl.
  unfold bind at 1, getitem.
  destruct (lookup_col "embedding" (columns df)) as [col|]; simpl; [|done].
  unfold bind at 1, np_array.
  destruct (np_array_value E col) as [e|X]; simpl; [done|].
  unfold bind at 1. simpl. unfold bind at 1, extern.
  destruct (KMeans_fit E k rs X (omega w)) as [[e|km] o]; simpl; [done|].
  unfold bind, setitem, deref, bind. simpl. rewrite Hl.
  by destruct (decide _).
Qed.

Lemma new_events_app w (evs : list (event float)) (h : gmap loc (DataFrame float)) o :
  new_events w (MkWorld h o (trace w ++ evs)) = evs.
Proof. unfold new_events. simpl. by rewrite drop_app_length. Qed.

Lemma new_events_refl w : new_events w w = [].
Proof. unfold new_events. by rewrite drop_all. Qed.

(** The label assignment of a run, read off the collection and the answer
    of the clustering routine. *)
Lemma labels_of_cluster self k rs w df :
  heap w !! sentence_df self = Some df ->
  labels_of (cluster self k rs w) =
  match lookup_col "embedding" (columns df) with
  | None => inl (Foreign Pandas (Exc "KeyError" "embedding"))
  | Some col =>
      match np_array_value E col with
      | inl e => inl (Foreign Numpy e)
      | inr X =>
          match fst (KMeans_fit E k rs X (omega w)) with
          | inl e => inl (Foreign Sklearn e)
          | inr km =>
              let labels := map CInt (labels_ E km) in
              let n := length labels in
              if decide (n = nrows (ensure_valid_index df (range_index n) n))
              then inr (labels_ E km, Some labels)
              else inl (Foreign Pandas (Exc "ValueError"
                     "Length of values does not match length of index"))
          end
      end
  end.
Proof.
  intros Hl. rewrite (cluster_run _ _ _ _ _ Hl). unfold cluster_outcome.
  destruct (lookup_col "embedding" (columns df)) as [col|]; [|done].
  destruct (np_array_value E col) as [e|X]; [done|].
  destruct (KMeans_fit E k rs X (omega w)) as [[e|km] o]; [done|].
  simpl. destruct (decide _); [|done].
  unfold labels_of. simpl. rewrite lookup_insert_eq. simpl.
  by rewrite lookup_assign_col_eq.
Qed.


(** The second of two runs in a row on the same instance assigns the labels
    the first one did. *)
Lemma cluster_twice self w df k s :
  seeded_deterministic E -> labels_per_sample E -> wf_frame df ->
  heap w !! sentence_df self = Some df ->
  labels_of (cluster self k (Some s) (snd (cluster self k (Some s) w)))
  = labels_of (cluster self k (Some s) w).
Proof.
  intros Hdet Hper Hwf Hl.
  pose proof (cluster_run self k (Some s) w df Hl) as Hrun.
  assert (exists df', heap (snd (cluster self k (Some s) w)) !! sentence_df self
                      = Some df' /\
                      lookup_col "embedding" (columns df')
                      = lookup_col "embedding" (columns df) /\
                      nrows df' = nrows df) as (df' & Hl' & Hemb & Hn).
  { rewrite Hrun. unfold cluster_outcome.
    destruct (lookup_col "embedding" (columns df)) as [col|] eqn:Hc;
      [|by exists df].
    destruct (np_array_value E col) as [e|X] eqn:HX; [by exists df|].
    destruct (KMeans_fit E k (Some s) X (omega w)) as [[e|km] o] eqn:Hfit;
      [by exists df|].
    simpl. rewrite (cluster_keeps_index _ _ _ _ _ _ _ _ Hwf Hper Hc HX Hfit).
    destruct (decide _); [|by exists df]. simpl.
    eexists. split; [apply lookup_insert_eq|]. simpl. split; [|done].
    by rewrite lookup_assign_col_ne. }
  rewrite (labels_of_cluster _ _ _ _ _ Hl'), (labels_of_cluster _ _ _ _ _ Hl).
  rewrite Hemb.
  destruct (lookup_col "embedding" (columns df)) as [col|]; [|done].
  destruct (np_array_value E col) as [e|X]; [done|].
  rewrite (Hdet k s X _ (omega w)).
  destruct (fst (KMeans_fit E k (Some s) X (omega w))) as [e|km]; [done|].
  simpl. by rewrite (nrows_ensure_valid_index df' df _ _ Hn).
Qed.

(** C3, as the code has it: [cluster] checks nothing itself.  On a
    collection with distinct column names whose embeddings can be stacked
    it always invokes the clustering routine, with the [n_clusters] it was
    given; when the routine raises, its exception is what the caller
    receives, and the collection is as it was. *)
Theorem cluster_delegates_validation self w df s vs k rs :
  distinct_columns df ->
  heap w !! sentence_df self = Some df ->
  lookup_col "embedding" (columns df) = Some (map CArr vs) ->
  uniform s vs ->
  let r := cluster self k rs w in
  new_events w (snd r) = [EvKMeansFit k rs (stack vs)] /\
  forall x, fst (KMeans_fit E k rs (stack vs) (omega w)) = inl x ->
            fst r = inl (Foreign Sklearn x) /\ heap (snd r) = heap w.
Proof.
  intros _ Hl Hemb Hu r. subst r.
  rewrite (cluster_run _ _ _ _ _ Hl). unfold cluster_outcome.
  rewrite Hemb, (np_array_value_stack _ _ Hu).
  destruct (KMeans_fit E k rs (stack vs) (omega w)) as [[e|km] o]; simpl.
  - split; [apply new_events_app|]. by intros x [= ->].
  - destruct (decide _); simpl; (split; [apply new_events_app | done]).
Qed.

(** C6: on a collection with distinct column names whose embedding column
    holds one vector of length [d] per record, the matrix given to the
    clustering routine has the embedding of the i-th record as its i-th
    row, and when the routine answers with one label per record the run
    returns; the collection then has the rows and the other columns it had,
    in the same order, and its [label] column is the list of the labels of
    the routine in their order: the i-th label is in row i, beside the hash
    and the embedding of the i-th record, and it lies in [0, n_clusters)
    when the labels of the routine do. *)
Theorem cluster_labels_follow_record_order self w df d vs k rs km o :
  distinct_columns df ->
  heap w !! sentence_df self = Some df ->
  lookup_col "embedding" (columns df) = Some (map CArr vs) ->
  Forall (fun a => shape a = [d] /\ length (data a) = d) vs ->
  length vs = nrows df ->
  KMeans_fit E k rs (stack vs) (omega w) = (inr km, o) ->
  length (labels_ E km) = nrows df ->
  Forall (fun z => 0 <= z < k) (labels_ E km) ->
  let r := cluster self k rs w in
  new_events w (snd r) = [EvKMeansFit k rs (stack vs)] /\
  (forall i a, vs !! i = Some a ->
     shape (stack vs) = [nrows df; d] /\ row (stack vs) i = data a) /\
  fst r = inr (sentence_df self, km) /\
  exists df' labels,
    heap (snd r) !! sentence_df self = Some df' /\
    col_frame "label" df df' /\
    lookup_col "embedding" (columns df') = Some (map CArr vs) /\
    lookup_col "label" (columns df') = Some labels /\
    labels = map CInt (labels_ E km) /\
    length labels = nrows df' /\
    (forall i z, labels_ E km !! i = Some z -> labels !! i = Some (CInt z)) /\
    Forall (fun c => exists z, c = CInt z /\ 0 <= z < k) labels.
Proof.
  intros _ Hl Hemb Hvs Hn Hfit Hlen Hrange r. subst r.
  assert (uniform [d] vs) as Hu.
  { eapply Forall_impl; [exact Hvs|]. by intros a [Ha _]. }
  rewrite (cluster_run _ _ _ _ _ Hl). unfold cluster_outcome.
  rewrite Hemb, (np_array_value_stack _ _ Hu), Hfit. simpl.
  rewrite ensure_valid_index_id by (rewrite length_map; lia).
  rewrite decide_True by (by rewrite length_map). simpl.
  split; [apply new_events_app|]. split.
  { intros i a Hi. rewrite <- Hn. by apply stack_row. }
  split; [done|].
  eexists _, _. split; [apply lookup_insert_eq|]. simpl.
  split.
  { split; [done|]. intros c Hc. by apply lookup_assign_col_ne. }
  split; [by rewrite lookup_assign_col_ne|].
  split; [apply lookup_assign_col_eq|]. split; [done|].
  split; [by rewrite length_map|]. split.
  { intros i z Hi.
    change (map CInt (labels_ E km)) with (CInt (float := float) <$> labels_ E km).
    by rewrite list_lookup_fmap, Hi. }
  apply List.Forall_map. eapply Forall_impl; [exact Hrange|].
  intros z Hz. by exists z.
Qed.

(** ** The embedder *)

(** What a run of [get_embeddings] does on an instance whose collection is
    [df]: without a [hash] column pandas raises; without records an empty
    [embedding] column is written; otherwise the embedding of the first
    record raises. *)
Lemma get_embeddings_no_hash self w df :
  heap w !! sentence_df self = Some df ->
  lookup_col "hash" (columns df) = None ->
  get_embeddings self w = (inl (Foreign Pandas (Exc "KeyError" "hash")), w).
Proof.
  intros Hl Hh. unfold get_embeddings, call_method. simpl.
  unfold bind at 1, deref. rewrite Hl.
  unfold bind at 1, getitems, bind at 1. simpl.
  unfold bind at 1, bind at 1, getitem. by rewrite Hh.
Qed.

Lemma get_embeddings_empty self w df :
  heap w !! sentence_df self = Some df ->
  lookup_col "hash" (columns df) = Some [] ->
  get_embeddings self w =
  (inr (sentence_df self),
   MkWorld (<[sentence_df self :=
                Frame (index df) (assign_col "embedding" [] (columns df))]>
              (heap w)) (omega w) (trace w)).
Proof.
  intros Hl Hh. unfold get_embeddings, call_method. simpl.
  unfold bind at 1, deref. rewrite Hl.
  unfold bind at 1, getitems, bind at 1. simpl.
  unfold bind at 1, bind at 1, getitem. rewrite Hh. simpl.
  cbv [bind setitem_frame deref align store traverse ret zip zip_with
       columns index fst snd].
  simpl. rewrite Hl. rewrite ensure_valid_index_id by (by right).
  by rewrite decide_True.
Qed.

Lemma get_embeddings_nonempty self w df h hs e w' :
  heap w !! sentence_df self = Some df ->
  lookup_col "hash" (columns df) = Some (h :: hs) ->
  __generate_embedding self h w = (inl e, w') ->
  get_embeddings self w = (inl e, w').
Proof.
  intros Hl Hh He. unfold get_embeddings, call_method. simpl.
  unfold bind at 1, deref. rewrite Hl.
  unfold bind at 1, getitems, bind at 1. simpl.
  unfold bind at 1, bind at 1, getitem. rewrite Hh. simpl.
  unfold bind at 1, applymap, bind at 1. simpl.
  unfold bind at 1, bind at 1, bind at 1. by rewrite He.
Qed.

Lemma touches_trace l c (P : event float -> Prop) w w' :
  touches l c P w w' -> Forall P (new_events w w').
Proof.
  intros (_ & _ & evs & Ht & Hevs). unfold new_events.
  by rewrite Ht, drop_app_length.
Qed.

Lemma get_embeddings_touches self w df :
  heap w !! sentence_df self = Some df ->
  touches (sentence_df self) "embedding"
          (embedding_call E (AUDIO_OUTPUT_DIR self))
          w (snd (get_embeddings self w)).
Proof.
  intros Hl. destruct (lookup_col "hash" (columns df)) as [[|h hs]|] eqn:Hh.
  - rewrite (get_embeddings_empty _ _ _ Hl Hh). by apply touches_store_col.
  - destruct (generate_embedding_raises self h w) as [e He].
    destruct (__generate_embedding self h w) as [r w'] eqn:Hrun.
    simpl in He. subst r.
    rewrite (get_embeddings_nonempty _ _ _ _ _ _ _ Hl Hh Hrun). simpl.
    apply reads_touches.
    pose proof (generate_embedding_reads self h w) as Hr.
    by rewrite Hrun in Hr.
  - rewrite (get_embeddings_no_hash _ _ _ Hl Hh). reflexivity.
Qed.

Lemma cluster_touches self k rs w df :
  labels_per_sample E -> wf_frame df ->
  heap w !! sentence_df self = Some df ->
  touches (sentence_df self) "label" clustering_call
          w (snd (cluster self k rs w)).
Proof.
  intros Hper Hwf Hl.
  rewrite (cluster_run _ _ _ _ _ Hl). unfold cluster_outcome.
  destruct (lookup_col "embedding" (columns df)) as [col|] eqn:Hc;
    [|reflexivity].
  destruct (np_array_value E col) as [e|X] eqn:HX; [reflexivity|].
  assert (forall o, touches (sentence_df self) "label" clustering_call w
            (MkWorld (heap w) o (trace w ++ [EvKMeansFit k rs X]))) as Hcall.
  { intros o. apply reads_touches. split; [done|].
    exists [EvKMeansFit k rs X]. split; [done|]. by apply Forall_singleton. }
  destruct (KMeans_fit E k rs X (omega w)) as [[e|km] o] eqn:Hfit; simpl;
    [done|].
  rewrite (cluster_keeps_index _ _ _ _ _ _ _ _ Hwf Hper Hc HX Hfit).
  destruct (decide _); simpl; [|done].
  etrans; [apply (Hcall o)|].
  by apply (touches_store_col _ _ _
              (MkWorld (heap w) o (trace w ++ [EvKMeansFit k rs X]))).
Qed.


(** When the reader raises for the first record, its exception, raised
    inside deep_speaker for the resolved path, is what the caller receives. *)
Lemma get_embeddings_reader_exception self w df h hs x o :
  heap w !! sentence_df self = Some df ->
  lookup_col "hash" (columns df) = Some (h :: hs) ->
  read_mfcc E (segment_path E (AUDIO_OUTPUT_DIR self) h) (SAMPLE_RATE E)
            (omega w) = (inl x, o) ->
  fst (get_embeddings self w) = inl (Foreign DeepSpeaker x).
Proof.
  intros Hl Hh Hread.
  pose proof (generate_embedding_run self h w) as Hrun. simpl in Hrun.
  rewrite Hread in Hrun.
  by rewrite (get_embeddings_nonempty _ _ _ _ _ _ _ Hl Hh Hrun).
Qed.

(** C4, as the code has it: when the segment of the first record is read
    and sampled, [get_embeddings] raises the NameError of line 75 for
    [model] there and then, whatever the segments of the other records:
    the reader is called for the first record only, so a record whose
    segment is missing is not looked for and no exception names its path. *)
Theorem get_embeddings_masks_missing_segment self w df h hs audio o mfcc o' :
  heap w !! sentence_df self = Some df ->
  lookup_col "hash" (columns df) = Some (h :: hs) ->
  read_mfcc E (segment_path E (AUDIO_OUTPUT_DIR self) h) (SAMPLE_RATE E)
            (omega w) = (inr audio, o) ->
  sample_from_mfcc E audio (NUM_FRAMES E) o = (inr mfcc, o') ->
  let r := get_embeddings self w in
  fst r = inl (NameError "model") /\
  new_events w (snd r)
  = [EvReadMfcc (segment_path E (AUDIO_OUTPUT_DIR self) h) (SAMPLE_RATE E);
     EvSampleFromMfcc audio (NUM_FRAMES E)] /\
  heap (snd r) = heap w.
Proof.
  intros Hl Hh Hread Hsample r. subst r.
  pose proof (generate_embedding_run self h w) as Hrun. simpl in Hrun.
  rewrite Hread, Hsample in Hrun.
  rewrite (get_embeddings_nonempty _ _ _ _ _ _ _ Hl Hh Hrun). simpl.
  split; [done|]. split; [|done].
  rewrite <- app_assoc. apply new_events_app.
Qed.

End Properties.

(** * Further properties of the methods *)

Lemma length_append (a b : string) :
  String.length (a +:+ b) = (String.length a + String.length b)%nat.
Proof.
  induction a as [|x a IH]; [done|].
  change (S (String.length (a +:+ b))
          = S (String.length a + String.length b)). by rewrite IH.
Qed.

Lemma append_inj_r (a b c : string) : a +:+ c = b +:+ c -> a = b.
Proof.
  revert b. induction a as [|x a IH]; intros [|y b] Heq.
  - done.
  - change ("" +:+ c) with c in Heq.
    apply (f_equal String.length) in Heq.
    rewrite (length_append (String y b) c) in Heq. simpl in Heq. lia.
  - change ("" +:+ c) with c in Heq.
    apply (f_equal String.length) in Heq.
    rewrite (length_append (String x a) c) in Heq. simpl in Heq. lia.
  - change (String x (a +:+ c) = String y (b +:+ c)) in Heq.
    injection Heq as -> Heq. f_equal. by apply IH.
Qed.

Section Further.

Context {float : Type} {E : Externals float}.

Implicit Types (w : World E) (self : DeepdubClusterer E) (df : DataFrame float).

Lemma get_embeddings_not_a_frame self w :
  heap w !! sentence_df self = None ->
  get_embeddings self w = (inl (TypeError NotSubscriptable), w).
Proof.
  intros Hl. unfold get_embeddings, call_method. simpl.
  unfold bind at 1, deref. by rewrite Hl.
Qed.

Lemma cluster_not_a_frame self k rs w :
  heap w !! sentence_df self = None ->
  cluster self k rs w = (inl (TypeError NotSubscriptable), w).
Proof.
  intros Hl. unfold cluster, call_method. simpl.
  unfold bind at 1. simpl. unfold bind at 1, deref. by rewrite Hl.
Qed.

Lemma assign_col_assign_col key (v1 v2 : list (cell float)) cols :
  assign_col key v2 (assign_col key v1 cols) = assign_col key v2 cols.
Proof.
  induction cols as [|[k old] cols IH]; simpl.
  - by rewrite decide_True.
  - destruct (decide (k = key)) as [->|Hne]; simpl.
    + by rewrite decide_True.
    + rewrite decide_False by done. by rewrite IH.
Qed.

Lemma wf_frame_assign_col df key (v : list (cell float)) :
  wf_frame df -> length v = nrows df ->
  wf_frame (Frame (index df) (assign_col key v (columns df))).
Proof.
  unfold wf_frame, nrows. simpl. generalize (length (index df)).
  intros n Hwf Hv. induction Hwf as [|[k old] cols Hold Hcols IH]; simpl.
  - by repeat constructor.
  - destruct (decide (k = key)); constructor; done.
Qed.

(** The result of a run of [cluster], read off the collection and the
    answer of the clustering routine. *)
Lemma fst_cluster self k rs w df :
  heap w !! sentence_df self = Some df ->
  fst (cluster self k rs w) =
  match lookup_col "embedding" (columns df) with
  | None => inl (Foreign Pandas (Exc "KeyError" "embedding"))
  | Some col =>
      match np_array_value E col with
      | inl e => inl (Foreign Numpy e)
      | inr X =>
          match fst (KMeans_fit E k rs X (omega w)) with
          | inl e => inl (Foreign Sklearn e)
          | inr km =>
              let n := length (map (CInt (float := float)) (labels_ E km)) in
              if decide (n = nrows (ensure_valid_index df (range_index n) n))
              then inr (sentence_df self, km)
              else inl (Foreign Pandas (Exc "ValueError"
                     "Length of values does not match length of index"))
          end
      end
  end.
Proof.
  intros Hl. rewrite (cluster_run _ _ _ _ _ Hl). unfold cluster_outcome.
  destruct (lookup_col "embedding" (columns df)) as [col|]; [|done].
  destruct (np_array_value E col) as [e|X]; [done|].
  destruct (KMeans_fit E k rs X (omega w)) as [[e|km] o]; [done|].
  simpl. by destruct (decide _).
Qed.

(** The store after a run of [cluster] on a well-formed collection. *)
Lemma cluster_store self k rs w df :
  labels_per_sample E -> wf_frame df ->
  heap w !! sentence_df self = Some df ->
  match fst (cluster self k rs w) with
  | inr (_, km) =>
      length (labels_ E km) = nrows df /\
      heap (snd (cluster self k rs w))
      = <[sentence_df self :=
            Frame (index df)
                  (assign_col "label" (map CInt (labels_ E km)) (columns df))]>
          (heap w)
  | inl _ => heap (snd (cluster self k rs w)) = heap w
  end.
Proof.
  intros Hper Hwf Hl. rewrite (cluster_run _ _ _ _ _ Hl).
  unfold cluster_outcome.
  destruct (lookup_col "embedding" (columns df)) as [col|] eqn:Hc; [|done].
  destruct (np_array_value E col) as [e|X] eqn:HX; [done|].
  destruct (KMeans_fit E k rs X (omega w)) as [[e|km] o] eqn:Hfit; [done|].
  simpl. rewrite (cluster_keeps_index _ _ _ _ _ _ _ _ Hwf Hper Hc HX Hfit).
  destruct (decide _) as [Hlen|]; [|done]. simpl.
  by rewrite length_map in Hlen.
Qed.

Lemma generate_scatter_3d_unbound_run w :
  generate_scatter_3d_unbound (E := E) w =
  match PCA E 3 (omega w) with
  | (inl e, o) =>
      (inl (Foreign Sklearn e), MkWorld (heap w) o (trace w ++ [EvPCA 3]))
  | (inr _, o) =>
      (inl (NameError "self"), MkWorld (heap w) o (trace w ++ [EvPCA 3]))
  end.
Proof.
  unfold generate_scatter_3d_unbound, call_method, generate_scatter_3d_body,
    bind, extern, load_global, load_global_as.
  simpl. by destruct (PCA E 3 (omega w)) as [[e|pca] o].
Qed.

(** ** The embedder: edge cases *)

(** X1: on a collection without a [hash] column, [get_embeddings] raises the
    KeyError of pandas for [hash]; no file is read and the world is as it
    was. *)
Theorem get_embeddings_without_hash_column self w df :
  heap w !! sentence_df self = Some df ->
  lookup_col "hash" (columns df) = None ->
  fst (get_embeddings self w) = inl (Foreign Pandas (Exc "KeyError" "hash")) /\
  snd (get_embeddings self w) = w.
Proof. intros Hl Hh. by rewrite (get_embeddings_no_hash _ _ _ Hl Hh). Qed.

(** X2: on a collection with distinct column names, [get_embeddings]
    returns exactly when the collection has a [hash] column and no record;
    it then writes an empty [embedding] column and calls nothing.  On every
    such collection with a record it raises. *)
Theorem get_embeddings_returns_iff_no_record self w df :
  distinct_columns df ->
  heap w !! sentence_df self = Some df ->
  let r := get_embeddings self w in
  ((exists l, fst r = inr l) <-> lookup_col "hash" (columns df) = Some []) /\
  (lookup_col "hash" (columns df) = Some [] ->
   new_events w (snd r) = [] /\
   heap (snd r) !! sentence_df self
   = Some (Frame (index df) (assign_col "embedding" [] (columns df)))).
Proof.
  intros _ Hl r. subst r.
  destruct (lookup_col "hash" (columns df)) as [[|h hs]|] eqn:Hh.
  - rewrite (get_embeddings_empty _ _ _ Hl Hh). simpl. split.
    + split; [done | by eexists].
    + intros _. split; [|apply lookup_insert_eq].
      unfold new_events. simpl. by rewrite drop_all.
  - destruct (generate_embedding_raises self h w) as [e He].
    destruct (__generate_embedding self h w) as [r w'] eqn:Hrun.
    simpl in He. subst r.
    rewrite (get_embeddings_nonempty _ _ _ _ _ _ _ Hl Hh Hrun). simpl.
    split; [|done]. split; [by intros [l ?] | done].
  - rewrite (get_embeddings_no_hash _ _ _ Hl Hh). simpl.
    split; [|done]. split; [by intros [l ?] | done].
Qed.

(** X3: on a collection with records, [get_embeddings] gets no further than
    the first one: it reads the segment of the first hash, at the sample
    rate of deep_speaker, samples what it read when the read succeeded, and
    calls nothing else: no other segment is read and the model never
    predicts. *)
Theorem get_embeddings_stops_at_first_record self w df h hs :
  heap w !! sentence_df self = Some df ->
  lookup_col "hash" (columns df) = Some (h :: hs) ->
  let read := EvReadMfcc (segment_path E (AUDIO_OUTPUT_DIR self) h)
                         (SAMPLE_RATE E) in
  let evs := new_events w (snd (get_embeddings self w)) in
  evs = [read] \/
  exists audio, evs = [read; EvSampleFromMfcc audio (NUM_FRAMES E)].
Proof.
  intros Hl Hh read evs. subst evs.
  destruct (generate_embedding_raises self h w) as [e He].
  destruct (__generate_embedding self h w) as [r w'] eqn:Hrun.
  simpl in He. subst r.
  rewrite (get_embeddings_nonempty _ _ _ _ _ _ _ Hl Hh Hrun). simpl.
  rewrite generate_embedding_run in Hrun. simpl in Hrun. fold read in Hrun.
  destruct (read_mfcc _ _ _ _) as [[x|audio] o].
  - injection Hrun as _ <-. left. apply new_events_app.
  - right. exists audio.
    destruct (sample_from_mfcc _ _ _ _) as [[x|mfcc] o'];
      injection Hrun as _ <-; rewrite <- app_assoc; apply new_events_app.
Qed.

(** X4: a run of [get_embeddings] or of [cluster] that raises leaves the
    store as it was: no column is half written. *)
Theorem failed_stage_leaves_store self w k rs :
  (forall e, fst (get_embeddings self w) = inl e ->
             heap (snd (get_embeddings self w)) = heap w) /\
  (forall e, fst (cluster self k rs w) = inl e ->
             heap (snd (cluster self k rs w)) = heap w).
Proof.
  destruct (heap w !! sentence_df self) as [df|] eqn:Hl; split; intros e.
  - destruct (lookup_col "hash" (columns df)) as [[|h hs]|] eqn:Hh.
    + by rewrite (get_embeddings_empty _ _ _ Hl Hh).
    + destruct (generate_embedding_raises self h w) as [e' He].
      pose proof (generate_embedding_reads self h w) as [Hheap _].
      destruct (__generate_embedding self h w) as [r w'] eqn:Hrun.
      simpl in He, Hheap. subst r.
      by rewrite (get_embeddings_nonempty _ _ _ _ _ _ _ Hl Hh Hrun).
    + by rewrite (get_embeddings_no_hash _ _ _ Hl Hh).
  - rewrite (cluster_run _ _ _ _ _ Hl). unfold cluster_outcome.
    repeat case_match; simpl; done.
  - by rewrite (get_embeddings_not_a_frame _ _ Hl).
  - by rewrite (cluster_not_a_frame _ _ _ _ Hl).
Qed.

(** ** The clusterer: edge cases and composition *)

(** X5: on a collection without an [embedding] column, [cluster] raises the
    KeyError of pandas for [embedding]; the clustering routine is not
    invoked and the world is as it was. *)
Theorem cluster_without_embedding_column self w df k rs :
  heap w !! sentence_df self = Some df ->
  lookup_col "embedding" (columns df) = None ->
  fst (cluster self k rs w)
  = inl (Foreign Pandas (Exc "KeyError" "embedding")) /\
  snd (cluster self k rs w) = w.
Proof.
  intros Hl Hc. rewrite (cluster_run _ _ _ _ _ Hl). unfold cluster_outcome.
  by rewrite Hc.
Qed.

(** X6: when [cluster] returns, it returns the collection of the instance
    and the model the clustering routine fitted, in one call, on the array
    made of the [embedding] column; the [label] column of the collection is
    then the list of the labels of that model, one per record. *)
Theorem cluster_return_labels_every_record self w df k rs l km :
  heap w !! sentence_df self = Some df ->
  fst (cluster self k rs w) = inr (l, km) ->
  l = sentence_df self /\
  exists col X df',
    lookup_col "embedding" (columns df) = Some col /\
    np_array_value E col = inr X /\
    new_events w (snd (cluster self k rs w)) = [EvKMeansFit k rs X] /\
    fst (KMeans_fit E k rs X (omega w)) = inr km /\
    heap (snd (cluster self k rs w)) !! sentence_df self = Some df' /\
    lookup_col "label" (columns df') = Some (map CInt (labels_ E km)) /\
    length (labels_ E km) = nrows df'.
Proof.
  intros Hl. rewrite (cluster_run _ _ _ _ _ Hl). unfold cluster_outcome.
  destruct (lookup_col "embedding" (columns df)) as [col|]; [|done].
  destruct (np_array_value E col) as [e|X] eqn:HX; [done|].
  destruct (KMeans_fit E k rs X (omega w)) as [[e|km'] o] eqn:Hfit; [done|].
  simpl. destruct (decide _) as [Hlen|]; [|done]. simpl.
  intros [= <- <-]. split; [done|].
  eexists col, X, _. split; [done|]. split; [done|].
  split; [apply new_events_app|]. split; [by rewrite Hfit|].
  split; [apply lookup_insert_eq|]. simpl.
  split; [apply lookup_assign_col_eq|].
  etrans; [symmetry; apply (length_map (CInt (float := float)))|].
  exact Hlen.
Qed.

(** X7: [cluster] overwrites.  After any first run of [cluster], a run with
    [n_clusters = k2] and an integer seed gives the result it would have
    given without the first run, and, when it returns, leaves the collection
    it would have left: the labels of the first run are replaced, no second
    [label] column is added.  (Seeded routine deterministic, one label per
    row, well-formed frame.) *)
Theorem cluster_relabels self w df k1 rs1 k2 s2 :
  seeded_deterministic E -> labels_per_sample E -> wf_frame df ->
  heap w !! sentence_df self = Some df ->
  let w1 := snd (cluster self k1 rs1 w) in
  let r := cluster self k2 (Some s2) w in
  let r' := cluster self k2 (Some s2) w1 in
  fst r' = fst r /\
  (forall l km, fst r = inr (l, km) ->
     heap (snd r') !! sentence_df self = heap (snd r) !! sentence_df self).
Proof.
  intros Hdet Hper Hwf Hl w1 r r'. subst w1 r r'.
  pose proof (cluster_store self k1 rs1 w df Hper Hwf Hl) as H1.
  set (w1 := snd (cluster self k1 rs1 w)) in *.
  assert (exists df1,
            heap w1 !! sentence_df self = Some df1 /\
            lookup_col "embedding" (columns df1)
              = lookup_col "embedding" (columns df) /\
            nrows df1 = nrows df /\ wf_frame df1 /\
            forall v, Frame (index df1) (assign_col "label" v (columns df1))
                      = Frame (index df) (assign_col "label" v (columns df)))
    as (df1 & Hl1 & Hemb & Hn & Hwf1 & Hassign).
  { destruct (fst (cluster self k1 rs1 w)) as [e|[l1 km1]].
    - exists df. by rewrite H1.
    - destruct H1 as [Hlen ->]. eexists. split; [apply lookup_insert_eq|].
      simpl. split; [by rewrite lookup_assign_col_ne|]. split; [done|].
      split; [apply wf_frame_assign_col; [done | by rewrite length_map]|].
      intros v. by rewrite assign_col_assign_col. }
  assert (fst (cluster self k2 (Some s2) w1)
          = fst (cluster self k2 (Some s2) w)) as Hfst.
  { rewrite (fst_cluster _ _ _ _ _ Hl1), (fst_cluster _ _ _ _ _ Hl), Hemb.
    destruct (lookup_col "embedding" (columns df)) as [col|]; [|done].
    destruct (np_array_value E col) as [e|X]; [done|].
    rewrite (Hdet k2 s2 X (omega w1) (omega w)).
    destruct (fst (KMeans_fit E k2 (Some s2) X (omega w))) as [e|km];
      [done|].
    simpl. by rewrite (nrows_ensure_valid_index df1 df _ _ Hn). }
  split; [done|]. intros l km Hr.
  pose proof (cluster_store self k2 (Some s2) w1 df1 Hper Hwf1 Hl1) as H2.
  pose proof (cluster_store self k2 (Some s2) w df Hper Hwf Hl) as H3.
  rewrite Hfst, Hr in H2. rewrite Hr in H3.
  destruct H2 as [_ ->]. destruct H3 as [_ ->].
  by rewrite !lookup_insert_eq, Hassign.
Qed.

(** ** Construction *)

(** X8: a construction that returns has made two calls, [DeepSpeakerModel()]
    and then the loading of the weights from the explicit path, else from
    the default one (the default file is not touched when a path is given).
    The instance keeps the reference to the collection it was given,
    without reading it: the store is as it was. *)
Theorem init_keeps_reference project_name sdf model_path w self w' :
  __init__ project_name sdf model_path w = (inr self, w') ->
  sentence_df self = sdf /\
  AUDIO_OUTPUT_DIR self
    = "./output_dir/" +:+ project_name +:+ "/audio_segments" /\
  heap w' = heap w /\
  new_events w w'
  = [EvDeepSpeakerModel;
     EvLoadWeights (default default_model_path model_path)].
Proof.
  rewrite init_run. simpl.
  destruct (DeepSpeakerModel E (omega w)) as [[e|m] o]; [done|].
  destruct (load_weights E m _ o) as [[e|m'] o']; [done|].
  intros [= <- <-]. simpl. split; [done|]. split; [done|]. split; [done|].
  rewrite <- app_assoc. apply new_events_app.
Qed.

(** ** The visualizer, called through the class *)

(** X9: called as a plain function, [generate_scatter_3d] constructs
    [PCA(n_components=3)] and stops there: it raises the exception of that
    constructor, or else a NameError for [self], which its body reads
    without having it as a parameter.  Nothing is projected or drawn. *)
Theorem generate_scatter_3d_unbound_stops_at_self w :
  let r := generate_scatter_3d_unbound (E := E) w in
  new_events w (snd r) = [EvPCA 3] /\
  Forall (fun ev => ~ rendering_call ev) (new_events w (snd r)) /\
  exists e, fst r = inl e /\ (e = NameError "self" \/ raised_in Sklearn e).
Proof.
  intros r. subst r. rewrite generate_scatter_3d_unbound_run.
  destruct (PCA E 3 (omega w)) as [[e|pca] o]; simpl;
    rewrite new_events_app.
  - split; [done|]. split; [repeat constructor; simpl; tauto|].
    exists (Foreign Sklearn e). split; [done|]. right. by exists e.
  - split; [done|]. split; [repeat constructor; simpl; tauto|].
    exists (NameError "self"). split; [done | by left].
Qed.

(** ** The segment resolver *)

(** X10: for a given project, two hashes that resolve to the same segment
    path are the same hash. *)
Theorem segment_path_injective (dir h1 h2 : string) :
  segment_path E dir (CStr h1) = segment_path E dir (CStr h2) -> h1 = h2.
Proof.
  unfold segment_path. simpl. intros Heq.
  apply (inj (String.app dir)) in Heq.
  apply (inj (String.app "/")) in Heq.
  by apply append_inj_r in Heq.
Qed.

(** ** The two stages in a row *)

(** X11: on a collection that has records and no [embedding] column yet,
    the embedder raises, and the clusterer run after it raises the KeyError
    of pandas for [embedding]: the clustering routine is never reached. *)
Theorem embed_then_cluster_without_embeddings self w df h hs k rs :
  heap w !! sentence_df self = Some df ->
  lookup_col "hash" (columns df) = Some (h :: hs) ->
  lookup_col "embedding" (columns df) = None ->
  let w1 := snd (get_embeddings self w) in
  (exists e, fst (get_embeddings self w) = inl e) /\
  cluster self k rs w1
  = (inl (Foreign Pandas (Exc "KeyError" "embedding")), w1).
Proof.
  intros Hl Hh Hc w1. subst w1.
  destruct (generate_embedding_raises self h w) as [e He].
  pose proof (generate_embedding_reads self h w) as [Hheap _].
  destruct (__generate_embedding self h w) as [r w'] eqn:Hrun.
  simpl in He, Hheap. subst r.
  rewrite (get_embeddings_nonempty _ _ _ _ _ _ _ Hl Hh Hrun). simpl.
  split; [by exists e|].
  assert (heap w' !! sentence_df self = Some df) as Hl' by by rewrite Hheap.
  rewrite (cluster_run _ _ _ _ _ Hl'). unfold cluster_outcome. by rewrite Hc.
Qed.

(** X12: on a collection with distinct column names and without records,
    the embedder returns the collection, and the clusterer run after it
    hands the clustering routine the empty array of shape (0,): what
    [cluster] then does is what that routine does with it. *)
Theorem embed_then_cluster_empty_collection self w df k rs :
  distinct_columns df ->
  heap w !! sentence_df self = Some df ->
  lookup_col "hash" (columns df) = Some [] ->
  let w1 := snd (get_embeddings self w) in
  let r := cluster self k rs w1 in
  fst (get_embeddings self w) = inr (sentence_df self) /\
  new_events w w1 = [] /\
  new_events w1 (snd r) = [EvKMeansFit k rs (NdArray [0%nat] [])] /\
  forall x, fst (KMeans_fit E k rs (NdArray [0%nat] []) (omega w)) = inl x ->
            fst r = inl (Foreign Sklearn x).
Proof.
  intros _ Hl Hh w1 r. subst r w1.
  rewrite (get_embeddings_empty _ _ _ Hl Hh). simpl.
  split; [done|]. split; [unfold new_events; simpl; by rewrite drop_all|].
  erewrite cluster_run by apply lookup_insert_eq.
  unfold cluster_outcome. simpl. rewrite lookup_assign_col_eq. simpl.
  destruct (KMeans_fit E k rs _ (omega w)) as [[e|km] o]; simpl.
  - unfold new_events. simpl. rewrite drop_app_length.
    split; [done|]. by intros x [= ->].
  - destruct (decide _); unfold new_events; simpl; rewrite drop_app_length;
      by split.
Qed.

End Further.

(** * The properties on the stand-ins *)

Lemma stub_embedded_distinct : distinct_columns Stub.embedded.
Proof. apply (bool_decide_unpack _). vm_compute. exact I. Defined.

Lemma stub_no_sentences_distinct : distinct_columns Stub.no_sentences.
Proof. apply (bool_decide_unpack _). vm_compute. exact I. Defined.

Lemma stub_seeded_deterministic : seeded_deterministic Stub.E.
Proof.
  intros k s X o1 o2. simpl. unfold Stub.kmeans.
  destruct (shape X) as [|n [|d [|? ?]]]; try reflexivity.
  destruct (decide (1 <= k <= Z.of_nat n)); reflexivity.
Defined.

Lemma stub_labels_per_sample : labels_per_sample Stub.E.
Proof.
  intros k rs X o km o'. simpl. unfold Stub.kmeans.
  destruct (shape X) as [|n [|d [|? ?]]]; try discriminate.
  destruct (decide (1 <= k <= Z.of_nat n)); [|discriminate].
  destruct rs; intros [= <- _]; simpl; apply length_replicate.
Defined.

(** Without a seed the stand-in draws from the process-wide generator, and
    two runs on the same embeddings may differ. *)
Example unseeded_runs_differ :
  labels_of (cluster Stub.clusterer 2 None (Stub.world_at 0 Stub.embedded))
  <> labels_of (cluster Stub.clusterer 2 None (Stub.world_at 5 Stub.embedded)).
Proof. vm_compute. discriminate. Qed.


Lemma generate_embedding_name_error_witness :
  fst (__generate_embedding Stub.clusterer (CStr "a1")
         (Stub.world Stub.sentences)) = inl (NameError "model").
Proof.
  eapply (generate_embedding_name_error (E := Stub.E) Stub.clusterer
            (CStr "a1") (Stub.world Stub.sentences)).
  - vm_compute. reflexivity.
  - vm_compute. reflexivity.
Defined.

(** The whole embedder on a collection whose first segment is on disk. *)
Example get_embeddings_raises_name_error :
  fst (get_embeddings Stub.clusterer (Stub.world Stub.sentences))
  = inl (NameError "model").
Proof. vm_compute. reflexivity. Qed.

(** C3, as the specification states it, fails: with two records and
    [n_clusters = 3] the clustering routine is invoked. *)
Lemma cluster_does_not_fail_fast :
  (3 > Z.of_nat (nrows Stub.embedded)) /\
  ~ fails_fast Stub.clusterer 3 (Some 123) (Stub.world Stub.embedded).
Proof.
  split; [reflexivity|].
  intros (e & _ & _ & Hnot). apply Hnot.
  vm_compute. apply Exists_cons_hd. exact I.
Qed.

Lemma cluster_delegates_validation_witness :
  let r := cluster Stub.clusterer 3 (Some 123) (Stub.world Stub.embedded) in
  new_events (Stub.world Stub.embedded) (snd r)
  = [EvKMeansFit 3 (Some 123) (stack Stub.embeddings)] /\
  fst r = inl (Foreign Sklearn
                 (Exc "ValueError" "n_samples should be >= n_clusters")).
Proof.
  destruct (cluster_delegates_validation (E := Stub.E) Stub.clusterer
              (Stub.world Stub.embedded) Stub.embedded [2%nat]
              Stub.embeddings 3 (Some 123))
    as [Hev Hraise].
  - exact stub_embedded_distinct.
  - reflexivity.
  - reflexivity.
  - repeat constructor.
  - split; [exact Hev|]. apply Hraise. reflexivity.
Defined.

(** On the stand-ins: the second record has no segment, and the exception
    that surfaces does not name its path. *)
Lemma missing_segment_not_identified :
  unreadable Stub.E
    (segment_path Stub.E (AUDIO_OUTPUT_DIR Stub.clusterer) (CStr "b2")) /\
  lookup_col "hash" (columns Stub.sentences)
    = Some [CStr "a1"; CStr "b2"] /\
  ~ surfaces_resolution_error Stub.clusterer (CStr "b2")
      (Stub.world Stub.sentences).
Proof.
  split; [|split; [reflexivity|]].
  - intros o. eexists. vm_compute. reflexivity.
  - intros (e & He & Hid). vm_compute in He. injection He as <-.
    vm_compute in Hid. destruct Hid as [n Hn]. discriminate.
Qed.

Lemma get_embeddings_masks_missing_segment_witness :
  unreadable Stub.E
    (segment_path Stub.E (AUDIO_OUTPUT_DIR Stub.clusterer) (CStr "b2")) /\
  let r := get_embeddings Stub.clusterer (Stub.world Stub.sentences) in
  fst r = inl (NameError "model") /\
  new_events (Stub.world Stub.sentences) (snd r)
  = [EvReadMfcc "./output_dir/demo/audio_segments/a1_vocals.wav" 16000;
     EvSampleFromMfcc (NdArray [200%nat; 64%nat] []) 160] /\
  heap (snd r) = heap (Stub.world Stub.sentences).
Proof.
  split; [intros o; eexists; vm_compute; reflexivity|].
  eapply (get_embeddings_masks_missing_segment (E := Stub.E) Stub.clusterer
            (Stub.world Stub.sentences) Stub.sentences
            (CStr "a1") [CStr "b2"]).
  - reflexivity.
  - reflexivity.
  - vm_compute. reflexivity.
  - vm_compute. reflexivity.
Defined.


Lemma cluster_labels_follow_record_order_witness :
  let r := cluster Stub.clusterer_by_row 2 (Some 123)
             (Stub.world_by_row Stub.embedded) in
  fst r = inr (7%nat, [0; 1]) /\
  exists df',
    heap (snd r) !! 7%nat = Some df' /\
    lookup_col "hash" (columns df') = Some [CStr "a1"; CStr "b2"] /\
    lookup_col "embedding" (columns df') = Some (map CArr Stub.embeddings) /\
    lookup_col "label" (columns df') = Some [CInt 0; CInt 1].
Proof.
  destruct (cluster_labels_follow_record_order (E := Stub.E_by_row)
              Stub.clusterer_by_row (Stub.world_by_row Stub.embedded)
              Stub.embedded 2%nat Stub.embeddings 2 (Some 123) [0; 1] 0%nat)
    as (_ & _ & Hret & df' & labels & Hl & [_ Hframe] & Hemb & Hlab & -> & _).
  - exact stub_embedded_distinct.
  - reflexivity.
  - reflexivity.
  - repeat constructor.
  - reflexivity.
  - reflexivity.
  - reflexivity.
  - repeat constructor; lia.
  - split; [exact Hret|]. exists df'. split; [exact Hl|].
    split; [by rewrite Hframe|]. split; [exact Hemb | exact Hlab].
Defined.


Lemma segment_path_convention_witness :
  fst (__init__ (E := Stub.E) "demo" 7%nat None (Stub.world Stub.sentences))
    = inr Stub.clusterer /\
  segment_path Stub.E (AUDIO_OUTPUT_DIR Stub.clusterer) (CStr "a1")
    = "./output_dir/demo/audio_segments/a1_vocals.wav".
Proof.
  split; [reflexivity|].
  refine (proj1 (segment_path_convention (E := Stub.E) "demo" 7%nat None
            (Stub.world Stub.sentences) Stub.clusterer _ "a1" _)).
  vm_compute. reflexivity.
Defined.

(** ** The further properties on the stand-ins *)

Lemma get_embeddings_without_hash_column_witness :
  fst (get_embeddings Stub.clusterer (Stub.world Stub.unhashed))
  = inl (Foreign Pandas (Exc "KeyError" "hash")) /\
  snd (get_embeddings Stub.clusterer (Stub.world Stub.unhashed))
  = Stub.world Stub.unhashed.
Proof.
  apply (get_embeddings_without_hash_column (E := Stub.E) Stub.clusterer
           (Stub.world Stub.unhashed) Stub.unhashed).
  - reflexivity.
  - reflexivity.
Defined.

Lemma get_embeddings_returns_iff_no_record_witness :
  exists l,
    fst (get_embeddings Stub.clusterer (Stub.world Stub.no_sentences)) = inr l.
Proof.
  apply (proj1 (get_embeddings_returns_iff_no_record (E := Stub.E)
                  Stub.clusterer (Stub.world Stub.no_sentences)
                  Stub.no_sentences stub_no_sentences_distinct eq_refl)).
  reflexivity.
Defined.

Lemma get_embeddings_stops_at_first_record_witness :
  let read := EvReadMfcc "./output_dir/demo/audio_segments/a1_vocals.wav"
                         16000 in
  let evs := new_events (Stub.world Stub.sentences)
               (snd (get_embeddings Stub.clusterer
                       (Stub.world Stub.sentences))) in
  evs = [read] \/ exists audio, evs = [read; EvSampleFromMfcc audio 160].
Proof.
  apply (get_embeddings_stops_at_first_record (E := Stub.E) Stub.clusterer
           (Stub.world Stub.sentences) Stub.sentences
           (CStr "a1") [CStr "b2"]).
  - reflexivity.
  - reflexivity.
Defined.

Lemma failed_stage_leaves_store_witness :
  heap (snd (get_embeddings Stub.clusterer (Stub.world Stub.missing)))
  = heap (Stub.world Stub.missing).
Proof.
  eapply (proj1 (failed_stage_leaves_store (E := Stub.E) Stub.clusterer
                   (Stub.world Stub.missing) 2 None)).
  vm_compute. reflexivity.
Defined.

Lemma cluster_without_embedding_column_witness :
  fst (cluster Stub.clusterer 2 (Some 123) (Stub.world Stub.sentences))
  = inl (Foreign Pandas (Exc "KeyError" "embedding")) /\
  snd (cluster Stub.clusterer 2 (Some 123) (Stub.world Stub.sentences))
  = Stub.world Stub.sentences.
Proof.
  apply (cluster_without_embedding_column (E := Stub.E) Stub.clusterer
           (Stub.world Stub.sentences) Stub.sentences).
  - reflexivity.
  - reflexivity.
Defined.

Lemma cluster_return_labels_every_record_witness :
  exists df',
    heap (snd (cluster Stub.clusterer 2 (Some 123)
                 (Stub.world Stub.embedded))) !! 7%nat = Some df' /\
    lookup_col "label" (columns df') = Some [CInt 0; CInt 0].
Proof.
  destruct (cluster_return_labels_every_record (E := Stub.E) Stub.clusterer
              (Stub.world Stub.embedded) Stub.embedded 2 (Some 123)
              7%nat [0; 0])
    as (_ & col & X & df' & _ & _ & _ & _ & Hl & Hlab & _).
  - reflexivity.
  - reflexivity.
  - exists df'. split; [exact Hl | exact Hlab].
Defined.

Lemma stub_embedded_wf : wf_frame Stub.embedded.
Proof. repeat constructor. Defined.

Lemma cluster_relabels_witness :
  fst (cluster Stub.clusterer 2 (Some 123)
         (snd (cluster Stub.clusterer 1 None (Stub.world Stub.embedded))))
  = fst (cluster Stub.clusterer 2 (Some 123) (Stub.world Stub.embedded)).
Proof.
  refine (proj1 (cluster_relabels (E := Stub.E) Stub.clusterer
            (Stub.world Stub.embedded) Stub.embedded 1 None 2 123
            stub_seeded_deterministic stub_labels_per_sample
            stub_embedded_wf _)).
  reflexivity.
Defined.

Lemma init_keeps_reference_witness :
  new_events (Stub.world Stub.sentences)
    (snd (__init__ (E := Stub.E) "demo" 7%nat (Some default_model_path)
            (Stub.world Stub.sentences)))
  = [EvDeepSpeakerModel; EvLoadWeights default_model_path].
Proof.
  refine (proj2 (proj2 (proj2
    (init_keeps_reference (E := Stub.E) "demo" 7%nat
       (Some default_model_path) (Stub.world Stub.sentences)
       Stub.clusterer _ _)))).
  vm_compute. reflexivity.
Defined.

Lemma segment_path_injective_witness :
  segment_path Stub.E "./output_dir/demo/audio_segments" (CStr "a1")
  = segment_path Stub.E "./output_dir/demo/audio_segments" (CStr "a1") /\
  "a1" = "a1".
Proof.
  split; [reflexivity|].
  apply (segment_path_injective (E := Stub.E)
           "./output_dir/demo/audio_segments" "a1" "a1").
  reflexivity.
Defined.

Lemma embed_then_cluster_without_embeddings_witness :
  fst (cluster Stub.clusterer 2 (Some 123)
         (snd (get_embeddings Stub.clusterer (Stub.world Stub.sentences))))
  = inl (Foreign Pandas (Exc "KeyError" "embedding")).
Proof.
  destruct (embed_then_cluster_without_embeddings (E := Stub.E)
              Stub.clusterer (Stub.world Stub.sentences) Stub.sentences
              (CStr "a1") [CStr "b2"] 2 (Some 123)) as [_ Hrun].
  - reflexivity.
  - reflexivity.
  - reflexivity.
  - by rewrite Hrun.
Defined.

Lemma embed_then_cluster_empty_collection_witness :
  let w1 := snd (get_embeddings Stub.clusterer
                   (Stub.world Stub.no_sentences)) in
  fst (get_embeddings Stub.clusterer (Stub.world Stub.no_sentences))
  = inr 7%nat /\
  new_events w1 (snd (cluster Stub.clusterer 2 (Some 123) w1))
  = [EvKMeansFit 2 (Some 123) (NdArray [0%nat] [])].
Proof.
  destruct (embed_then_cluster_empty_collection (E := Stub.E)
              Stub.clusterer (Stub.world Stub.no_sentences)
              Stub.no_sentences 2 (Some 123))
    as (Hret & _ & Hev & _).
  - exact stub_no_sentences_distinct.
  - reflexivity.
  - reflexivity.
  - split; [exact Hret | exact Hev].
Defined.
